(** * MediFox voice agent: the turn-taking and silence-detection logic of
      [voice_agent/frontend/src/App.tsx]

    The component [App] keeps six [useState] cells and five [useRef] cells and
    reacts to browser callbacks.  Every callback is embedded as a function on
    an explicit [State]; what the browser does between callbacks (a socket
    opening, a chunk becoming available, an audio element ending) is an
    [Event] consumed by [step].

    One point of JavaScript scoping shapes the whole embedding.  The values
    [isPlaying], [isPaused], [isProcessing], ... are [const] bindings made by
    one call of [App] (one render).  A setter such as [setIsPaused(true)]
    changes the cell read by the _next_ render and leaves the bindings of the
    closures already created untouched.  A callback therefore takes two
    arguments: the [Render] whose bindings it closed over, and the [State]
    holding the cells and the refs.  The handlers installed through JSX
    ([onClick]) belong to the latest render; the handlers installed
    imperatively ([ws.onopen], [mediaRecorder.ondataavailable]) keep the
    render of the click that created them.

    Left out, because no decision of the code depends on them: the calls to
    [console], the choice of a MIME type, the object URL of the reply, and
    the JSX.  [event.data.arrayBuffer().then(playAudio)] is run when the
    message arrives.  One socket and one recorder are modelled, those held by
    [wsRef] and [mediaRecorderRef]. *)

From Stdlib Require Import ZArith List String Bool Lia.
Import ListNotations.

Local Open Scope Z_scope.
Local Open Scope string_scope.
Local Open Scope list_scope.

(** ** Constants (App.tsx, lines 6-8) *)

Definition PAUSE_THRESHOLD : Z := 2.
Definition SILENCE_THRESHOLD : Z := 5.

(** ** Data model *)

(** The bindings one render of [App] gives to the six [useState] values. *)
Record Render := mkRender {
  transcript : string;
  aiResponse : string;
  isRecording : bool;
  isPlaying : bool;
  isPaused : bool;
  isProcessing : bool
}.

(** [WebSocket.readyState]. *)
Inductive ReadyState := CONNECTING | OPEN | CLOSING | CLOSED.

(** The socket held by [wsRef]; [ws_render] is the render closed over by its
    [onopen] handler (line 256). *)
Record WebSocket := mkWebSocket {
  readyState : ReadyState;
  ws_render : Render
}.

(** [MediaRecorder.state]. *)
Inductive RecordingState := inactive | recording | paused.

(** The recorder held by [mediaRecorderRef]: its state, whether the tracks of
    its microphone stream are still live (released by [onstop], line 170),
    and the render closed over by its [ondataavailable] handler (line 176). *)
Record MediaRecorder := mkMediaRecorder {
  mr_state : RecordingState;
  tracksLive : bool;
  mr_render : Render
}.

(** A captured chunk; the code observes nothing but [e.data.size]. *)
Record Blob := mkBlob { size : Z }.

(** What [ws.send] puts on the channel: a text frame, or a binary frame made
    of the listed parts ([new Blob(parts)]; a chunk sent as it is has one
    part). *)
Inductive Frame :=
| Text (s : string)
| Binary (parts : list Blob).

(** [event.data] of a [MessageEvent] ([binaryType] is ["blob"]). *)
Inductive MessageData :=
| DataString (s : string)
| DataBlob (b : Blob).

Record State := mkState {
  react : Render;                       (* the useState cells *)
  wsRef : option WebSocket;
  mediaRecorderRef : option MediaRecorder;
  audioChunksRef : list Blob;
  silentChunksRef : Z;
  currentAudioChunksRef : list Blob;
  wire : list Frame;                    (* frames sent so far, oldest first *)
  audible : nat;                        (* Audio elements playing *)
  awaitingMedia : list Render           (* setupMediaRecorder calls suspended
                                           on getUserMedia *)
}.

Definition initial_render : Render := mkRender "" "" false false false false.

Definition initial : State :=
  mkState initial_render None None [] 0 [] [] 0%nat [].

(** ** Field updates *)

Definition with_react (f : Render -> Render) (s : State) : State :=
  mkState (f (react s)) (wsRef s) (mediaRecorderRef s) (audioChunksRef s)
          (silentChunksRef s) (currentAudioChunksRef s) (wire s) (audible s)
          (awaitingMedia s).

Definition with_wsRef (w : option WebSocket) (s : State) : State :=
  mkState (react s) w (mediaRecorderRef s) (audioChunksRef s)
          (silentChunksRef s) (currentAudioChunksRef s) (wire s) (audible s)
          (awaitingMedia s).

Definition with_mediaRecorderRef (m : option MediaRecorder) (s : State) : State :=
  mkState (react s) (wsRef s) m (audioChunksRef s)
          (silentChunksRef s) (currentAudioChunksRef s) (wire s) (audible s)
          (awaitingMedia s).

Definition with_audioChunksRef (l : list Blob) (s : State) : State :=
  mkState (react s) (wsRef s) (mediaRecorderRef s) l
          (silentChunksRef s) (currentAudioChunksRef s) (wire s) (audible s)
          (awaitingMedia s).

Definition with_silentChunksRef (n : Z) (s : State) : State :=
  mkState (react s) (wsRef s) (mediaRecorderRef s) (audioChunksRef s)
          n (currentAudioChunksRef s) (wire s) (audible s)
          (awaitingMedia s).

Definition with_currentAudioChunksRef (l : list Blob) (s : State) : State :=
  mkState (react s) (wsRef s) (mediaRecorderRef s) (audioChunksRef s)
          (silentChunksRef s) l (wire s) (audible s)
          (awaitingMedia s).

Definition with_wire (l : list Frame) (s : State) : State :=
  mkState (react s) (wsRef s) (mediaRecorderRef s) (audioChunksRef s)
          (silentChunksRef s) (currentAudioChunksRef s) l (audible s)
          (awaitingMedia s).

Definition with_audible (n : nat) (s : State) : State :=
  mkState (react s) (wsRef s) (mediaRecorderRef s) (audioChunksRef s)
          (silentChunksRef s) (currentAudioChunksRef s) (wire s) n
          (awaitingMedia s).

Definition with_awaitingMedia (l : list Render) (s : State) : State :=
  mkState (react s) (wsRef s) (mediaRecorderRef s) (audioChunksRef s)
          (silentChunksRef s) (currentAudioChunksRef s) (wire s) (audible s)
          l.

(** The [useState] setters. *)

Definition setTranscript (v : string) : State -> State :=
  with_react (fun r => mkRender v (aiResponse r) (isRecording r) (isPlaying r)
                                (isPaused r) (isProcessing r)).

Definition setAIResponse (v : string) : State -> State :=
  with_react (fun r => mkRender (transcript r) v (isRecording r) (isPlaying r)
                                (isPaused r) (isProcessing r)).

Definition setIsRecording (v : bool) : State -> State :=
  with_react (fun r => mkRender (transcript r) (aiResponse r) v (isPlaying r)
                                (isPaused r) (isProcessing r)).

Definition setIsPlaying (v : bool) : State -> State :=
  with_react (fun r => mkRender (transcript r) (aiResponse r) (isRecording r) v
                                (isPaused r) (isProcessing r)).

Definition setIsPaused (v : bool) : State -> State :=
  with_react (fun r => mkRender (transcript r) (aiResponse r) (isRecording r)
                                (isPlaying r) v (isProcessing r)).

Definition setIsProcessing (v : bool) : State -> State :=
  with_react (fun r => mkRender (transcript r) (aiResponse r) (isRecording r)
                                (isPlaying r) (isPaused r) v).

(** ** Small observers *)

(** [wsRef.current && wsRef.current.readyState === WebSocket.OPEN]. *)
Definition ws_open (s : State) : bool :=
  match wsRef s with
  | Some ws => match readyState ws with OPEN => true | _ => false end
  | None => false
  end.

(** [mediaRecorderRef.current && mediaRecorderRef.current.state !== "inactive"]. *)
Definition recorder_live (s : State) : bool :=
  match mediaRecorderRef s with
  | Some mr => match mr_state mr with inactive => false | _ => true end
  | None => false
  end.

(** [wsRef.current.send(f)]. *)
Definition send (f : Frame) (s : State) : State :=
  with_wire (wire s ++ [f]) s.

(** [mediaRecorder.stop()]: the recorder becomes inactive and its [onstop]
    handler (lines 170-174) stops every track of the stream. *)
Definition MediaRecorder_stop (mr : MediaRecorder) : MediaRecorder :=
  mkMediaRecorder inactive false (mr_render mr).

(** ** The callbacks *)

(** [stopRecording], lines 24-43. *)
Definition stopRecording (s : State) : State :=
  let s1 :=
    match mediaRecorderRef s with
    | Some mr =>
        match mr_state mr with
        | inactive => s
        | _ =>
            setIsProcessing false
              (setIsPaused false
                 (setIsRecording false
                    (with_mediaRecorderRef (Some (MediaRecorder_stop mr)) s)))
        end
    | None => s
    end in
  with_silentChunksRef 0 s1.

(** [processPausedAudio], lines 46-69, as closed over by render [r]. *)
Definition processPausedAudio (r : Render) (s : State) : State :=
  if (Nat.eqb (List.length (currentAudioChunksRef s)) 0%nat || isProcessing r)%bool
  then s
  else
    let s1 := setIsProcessing true s in
    let chunksToProcess := currentAudioChunksRef s1 in
    if ws_open s1 then
      with_currentAudioChunksRef []
        (send (Binary chunksToProcess) (send (Text "PAUSE_PROCESSING") s1))
    else s1.

(** [playAudio], lines 72-103: the synchronous part.  What the audio element
    does later arrives through [audio_onended], [audio_onerror] and
    [audio_play_catch]. *)
Definition playAudio (s : State) : State :=
  let s1 := stopRecording s in
  let s2 := setIsPlaying true s1 in
  with_audible (S (audible s2)) s2.

(** [audio.onended], lines 80-87. *)
Definition audio_onended (s : State) : State :=
  if ws_open s then send (Text "CLIENT_DONE_PLAYING") s else s.

(** [audio.onerror], lines 89-95. *)
Definition audio_onerror (s : State) : State :=
  setIsPlaying false (setAIResponse "Error playing AI response." s).

(** The [catch] of [audio.play()], lines 97-102. *)
Definition audio_play_catch (s : State) : State :=
  setIsPlaying false (setAIResponse "Could not play AI response." s).

(** [event.data.replace(p, "")] for a string that starts with [p]. *)
Definition replace_prefix (p d : string) : string :=
  substring (String.length p) (String.length d - String.length p) d.

(** [handleWSMessage], lines 106-144. *)
Definition handleWSMessage (data : MessageData) (s : State) : State :=
  match data with
  | DataString d =>
      if prefix "[Transcript] " d then
        setTranscript (replace_prefix "[Transcript] " d) s
      else if prefix "[AI] " d then
        setAIResponse (replace_prefix "[AI] " d) s
      else if prefix "[Error] " d then
        setIsPlaying false (setAIResponse d s)
      else if d =? "[Status] AI_SPEAKING" then
        setIsPlaying true s
      else if d =? "[Status] AI_DONE_SPEAKING" then
        s
      else if d =? "[Status] CLIENT_READY" then
        setIsProcessing false (setIsPlaying false s)
      else if prefix "[Warning] " d then
        s
      else if d =? "[Status] SKIPPING_EMPTY_INPUT" then
        setIsProcessing false
          (setIsPlaying false
             (setAIResponse
                "Input was too short or silent, please try speaking again." s))
      else if d =? "[Status] PAUSE_PROCESSED" then
        setIsProcessing false s
      else s
  | DataBlob _ => playAudio s
  end.

(** [const isSilent = e.data.size < 1000], line 195. *)
Definition isSilent (data : Blob) : bool := (size data <? 1000)%Z.

(** [mediaRecorder.ondataavailable], lines 176-229, as closed over by render
    [r]; [data] is [e.data]. *)
Definition ondataavailable (r : Render) (s : State) (data : Blob) : State :=
  let s1 := with_audioChunksRef (audioChunksRef s ++ [data]) s in
  let s2 :=
    if negb (isProcessing r)
    then with_currentAudioChunksRef (currentAudioChunksRef s1 ++ [data]) s1
    else s1 in
  if (isPlaying r || isProcessing r)%bool then s2
  else if negb (ws_open s2) then stopRecording s2
  else
    if isSilent data then
      let s3 := with_silentChunksRef (silentChunksRef s2 + 1) s2 in
      let s4 :=
        if ((PAUSE_THRESHOLD <=? silentChunksRef s3)%Z && negb (isPaused r))%bool
        then processPausedAudio r (setIsPaused true s3)
        else s3 in
      if (SILENCE_THRESHOLD <=? silentChunksRef s4)%Z
      then stopRecording s4
      else s4
    else
      let s3 := if isPaused r then setIsPaused false s2 else s2 in
      let s4 := with_silentChunksRef 0 s3 in
      if negb (isProcessing r) then send (Binary [data]) s4 else s4.

(** [setupMediaRecorder], lines 146-240.  The call suspends on
    [getUserMedia]; the part after the [await] runs when the browser grants
    the stream, the [catch] when it refuses. *)
Definition setupMediaRecorder (r : Render) (s : State) : State :=
  with_awaitingMedia (awaitingMedia s ++ [r]) s.

Definition setupMediaRecorder_granted (r : Render) (s : State) : State :=
  setAIResponse ""
    (setTranscript ""
       (setIsRecording true
          (with_mediaRecorderRef (Some (mkMediaRecorder recording true r)) s))).

Definition setupMediaRecorder_catch (s : State) : State :=
  setIsRecording false
    (setAIResponse
       "Error initializing audio recording. Please check permissions." s).

(** [ws.onopen], lines 256-259, as closed over by render [r]. *)
Definition ws_onopen (r : Render) (s : State) : State :=
  setupMediaRecorder r s.

(** [ws.onclose], lines 262-268. *)
Definition ws_onclose (s : State) : State :=
  with_wsRef None
    (setAIResponse "Connection to server lost. Please refresh or try again."
       (setIsPlaying false (setIsRecording false s))).

(** [ws.onerror], lines 269-277. *)
Definition ws_onerror (s : State) : State :=
  let s1 :=
    setIsPlaying false
      (setIsRecording false
         (setAIResponse
            "WebSocket connection error. Please refresh or try again." s)) in
  match wsRef s1 with
  | Some ws => match readyState ws with
               | OPEN => s1
               | _ => with_wsRef None s1
               end
  | None => s1
  end.

(** [handleMicClick], lines 243-285, as closed over by render [r]. *)
Definition handleMicClick (r : Render) (s : State) : State :=
  if isPlaying r then s
  else if negb (isRecording r) then
    match wsRef s with
    | None => with_wsRef (Some (mkWebSocket CONNECTING r)) s
    | Some ws =>
        match readyState ws with
        | CLOSED | CLOSING => with_wsRef (Some (mkWebSocket CONNECTING r)) s
        | OPEN => setupMediaRecorder r s
        | CONNECTING => s
        end
    end
  else stopRecording s.

(** [ws.close()]: a socket that is connecting or open starts closing; one
    that is closing or closed is left alone. *)
Definition WebSocket_close (ws : WebSocket) : WebSocket :=
  match readyState ws with
  | CONNECTING | OPEN => mkWebSocket CLOSING (ws_render ws)
  | CLOSING | CLOSED => ws
  end.

(** The cleanup of the [useEffect], lines 288-298. *)
Definition unmount (s : State) : State :=
  let s1 :=
    match wsRef s with
    | Some ws => with_wsRef (Some (WebSocket_close ws)) s
    | None => s
    end in
  match mediaRecorderRef s1 with
  | Some mr =>
      match mr_state mr with
      | inactive => s1
      | _ => with_mediaRecorderRef (Some (MediaRecorder_stop mr)) s1
      end
  | None => s1
  end.

(** ** The browser as a source of events *)

(** What happens between two callbacks.  Each event runs one callback to
    completion; React commits the pending setter calls before the next one.
    The events are those of the socket and the recorder that [wsRef] and
    [mediaRecorderRef] hold at the time: the chunk a recorder still hands
    over after [stop()], and the events of a socket or recorder that the
    refs no longer hold, are not dispatched.  The lemmas on the callbacks
    themselves hold for every closure and every state, these calls
    included. *)
Inductive Event :=
| MicClick                        (* the button's onClick *)
| WsOpen                          (* the socket reaches OPEN *)
| WsMessage (d : MessageData)     (* a frame arrives *)
| WsClose                         (* the socket reaches CLOSED *)
| WsError                         (* the socket reports an error *)
| MediaGranted                    (* getUserMedia resolves *)
| MediaDenied                     (* getUserMedia rejects *)
| DataAvailable (b : Blob)        (* the recorder hands over a chunk *)
| AudioEnded                      (* an Audio element played to its end *)
| AudioError                      (* an Audio element reports an error *)
| AudioPlayRejected.              (* the promise of audio.play() rejects *)

Definition step (s : State) (e : Event) : State :=
  match e with
  | MicClick => handleMicClick (react s) s
  | WsOpen =>
      match wsRef s with
      | Some ws =>
          match readyState ws with
          | CONNECTING =>
              ws_onopen (ws_render ws)
                (with_wsRef (Some (mkWebSocket OPEN (ws_render ws))) s)
          | _ => s
          end
      | None => s
      end
  | WsMessage d => if ws_open s then handleWSMessage d s else s
  | WsClose =>
      match wsRef s with
      | Some ws =>
          ws_onclose (with_wsRef (Some (mkWebSocket CLOSED (ws_render ws))) s)
      | None => s
      end
  | WsError =>
      match wsRef s with
      | Some _ => ws_onerror s
      | None => s
      end
  | MediaGranted =>
      match awaitingMedia s with
      | r :: rest => setupMediaRecorder_granted r (with_awaitingMedia rest s)
      | [] => s
      end
  | MediaDenied =>
      match awaitingMedia s with
      | _ :: rest => setupMediaRecorder_catch (with_awaitingMedia rest s)
      | [] => s
      end
  | DataAvailable b =>
      match mediaRecorderRef s with
      | Some mr =>
          match mr_state mr with
          | recording => ondataavailable (mr_render mr) s b
          | _ => s
          end
      | None => s
      end
  | AudioEnded =>
      match audible s with
      | S n => audio_onended (with_audible n s)
      | O => s
      end
  | AudioError =>
      match audible s with
      | S n => audio_onerror (with_audible n s)
      | O => s
      end
  | AudioPlayRejected =>
      match audible s with
      | S n => audio_play_catch (with_audible n s)
      | O => s
      end
  end.

(** The state after a sequence of events. *)
Definition run (s : State) (es : list Event) : State := fold_left step es s.

(** The states the component can be in. *)
Definition reachable (s : State) : Prop := exists es, s = run initial es.

(** A recorder feeding the chunks [ds], one after the other, to the handler
    closed over render [r]. *)
Definition feed (r : Render) (s : State) (ds : list Blob) : State :=
  fold_left (ondataavailable r) ds s.

Definition chunks (sizes : list Z) : list Blob := map mkBlob sizes.

(** A session that has just started listening: click, socket open, stream
    granted. *)
Definition start_listening : list Event := [MicClick; WsOpen; MediaGranted].

(** Scenario A of the specification: chunk sizes 1200, 1100, 900, 800, 950
    delivered to a session that has just started listening. *)
Definition scenarioA_chunks : list Blob := chunks [1200; 1100; 900; 800; 950].

Definition scenarioA : State :=
  run initial (start_listening ++ map DataAvailable scenarioA_chunks).

(** The number of chunks at the end of [ds] classified silent since the last
    chunk classified speech: the length of the longest silent suffix. *)
Fixpoint leading_silent (ds : list Blob) : nat :=
  match ds with
  | [] => O
  | d :: rest => if isSilent d then S (leading_silent rest) else O
  end.

Definition trailing_silent (ds : list Blob) : Z :=
  Z.of_nat (leading_silent (rev ds)).

(** The state of a session that has just started listening. *)
Definition listening : State := run initial start_listening.


(** The state in which a reply is being played: listening, then the reply
    audio arrives. *)
Definition replying : State :=
  run initial (start_listening ++ [WsMessage (DataBlob (mkBlob 5000))]).

(** The state in which the reply has been played and reported: the client
    waits for the service. *)
Definition awaiting_reply : State := step replying AudioEnded.

(** The renders closed over by the handlers that are installed or about to
    be: the socket's [onopen], the recorder's [ondataavailable], and the
    suspended [setupMediaRecorder] calls. *)
Definition closures (s : State) : list Render :=
  match wsRef s with Some ws => [ws_render ws] | None => [] end
  ++ match mediaRecorderRef s with Some mr => [mr_render mr] | None => [] end
  ++ awaitingMedia s.

Definition recorder_render (s : State) : option Render :=
  option_map mr_render (mediaRecorderRef s).

(** [getStatusMessage], lines 302-308, of render [r]. *)
Definition getStatusMessage (r : Render) : string :=
  if isPlaying r then "AI is speaking / processing... please wait"
  else if isProcessing r then "Processing your speech while listening..."
  else if isPaused r then "Detected pause, processing speech..."
  else if isRecording r then "Listening to you..."
  else "Ready for conversation".

(** The shape of what the client puts on the channel: a chunk sent as it is
    (line 226), the marker followed at once by a payload of at least one
    chunk (lines 60-64), or the end-of-playback notice (line 83). *)
Fixpoint well_framed (w : list Frame) : bool :=
  match w with
  | [] => true
  | Binary parts :: rest =>
      match parts with
      | [_] => well_framed rest
      | _ => false
      end
  | Text t :: rest =>
      if t =? "CLIENT_DONE_PLAYING" then well_framed rest
      else if t =? "PAUSE_PROCESSING" then
        match rest with
        | Binary (_ :: _) :: rest' => well_framed rest'
        | _ => false
        end
      else false
  end.

(** The chunks sent in pause-flush payloads, in the order of sending: the
    parts of every binary frame that follows a marker. *)
Fixpoint flushed (w : list Frame) : list Blob :=
  match w with
  | [] => []
  | Binary _ :: rest => flushed rest
  | Text t :: rest =>
      match rest with
      | Binary parts :: _ => if t =? "PAUSE_PROCESSING" then parts else []
      | _ => []
      end ++ flushed rest
  end.

(** The chunks sent as they are: the single part of every binary frame that
    does not follow a marker. *)
Fixpoint streamed (w : list Frame) : list Blob :=
  match w with
  | [] => []
  | Binary parts :: rest => parts ++ streamed rest
  | Text t :: rest =>
      if t =? "PAUSE_PROCESSING" then
        match rest with
        | Binary _ :: rest' => streamed rest'
        | _ => streamed rest
        end
      else streamed rest
  end.

(** The cell [isRecording] and the recorder agree in one direction, and the
    tracks of the recorder's stream are live exactly while it records. *)
Definition recorder_coherent (s : State) : Prop :=
  (isRecording (react s) = true -> recorder_live s = true)
  /\ match mediaRecorderRef s with
     | Some mr =>
         (mr_state mr = recording /\ tracksLive mr = true)
         \/ (mr_state mr = inactive /\ tracksLive mr = false)
     | None => True
     end.

(** A render taken while the component was neither playing nor recording. *)
Definition idle_render (r : Render) : Prop :=
  isPlaying r = false /\ isRecording r = false.

(** * Properties *)

Ltac unfold_updates :=
  unfold setTranscript, setAIResponse, setIsRecording, setIsPlaying,
    setIsPaused, setIsProcessing, send, with_react, with_wsRef,
    with_mediaRecorderRef, with_audioChunksRef, with_silentChunksRef,
    with_currentAudioChunksRef, with_wire, with_audible, with_awaitingMedia
    in *.

(** ** [stopRecording] *)

Section StopRecording.

Variable s : State.

Lemma stopRecording_silentChunksRef : silentChunksRef (stopRecording s) = 0.
Proof. reflexivity. Qed.

Lemma stopRecording_recorder_live : recorder_live (stopRecording s) = false.
Proof.
  unfold stopRecording, recorder_live.
  destruct (mediaRecorderRef s) as [mr|] eqn:Hmr; simpl.
  - destruct (mr_state mr) eqn:Hst; simpl;
      try rewrite Hmr; try rewrite Hst; reflexivity.
  - rewrite Hmr. reflexivity.
Qed.

Lemma stopRecording_wsRef : wsRef (stopRecording s) = wsRef s.
Proof.
  unfold stopRecording.
  destruct (mediaRecorderRef s) as [mr|]; [destruct (mr_state mr)|];
    reflexivity.
Qed.

Lemma stopRecording_wire : wire (stopRecording s) = wire s.
Proof.
  unfold stopRecording.
  destruct (mediaRecorderRef s) as [mr|]; [destruct (mr_state mr)|];
    reflexivity.
Qed.

Lemma stopRecording_audioChunksRef :
  audioChunksRef (stopRecording s) = audioChunksRef s.
Proof.
  unfold stopRecording.
  destruct (mediaRecorderRef s) as [mr|]; [destruct (mr_state mr)|];
    reflexivity.
Qed.

Lemma stopRecording_currentAudioChunksRef :
  currentAudioChunksRef (stopRecording s) = currentAudioChunksRef s.
Proof.
  unfold stopRecording.
  destruct (mediaRecorderRef s) as [mr|]; [destruct (mr_state mr)|];
    reflexivity.
Qed.

Lemma stopRecording_isPlaying :
  isPlaying (react (stopRecording s)) = isPlaying (react s).
Proof.
  unfold stopRecording.
  destruct (mediaRecorderRef s) as [mr|]; [destruct (mr_state mr)|];
    reflexivity.
Qed.

Lemma stopRecording_tracks_released :
  match mediaRecorderRef (stopRecording s) with
  | Some mr => mr_state mr = inactive
  | None => mediaRecorderRef s = None
  end.
Proof.
  unfold stopRecording.
  destruct (mediaRecorderRef s) as [mr|] eqn:Hmr; simpl.
  - destruct (mr_state mr) eqn:Hst; simpl; try rewrite Hmr; auto.
  - rewrite Hmr. reflexivity.
Qed.

Lemma stopRecording_again :
  stopRecording (stopRecording s) = stopRecording s.
Proof.
  unfold stopRecording.
  destruct (mediaRecorderRef s) as [mr|] eqn:Hmr; simpl.
  - destruct (mr_state mr) eqn:Hst; simpl; try rewrite Hmr; try rewrite Hst;
      reflexivity.
  - rewrite Hmr. reflexivity.
Qed.

End StopRecording.

Create Rewrite HintDb handlers.

#[local] Hint Rewrite stopRecording_silentChunksRef stopRecording_recorder_live
  stopRecording_wsRef stopRecording_wire stopRecording_audioChunksRef
  stopRecording_currentAudioChunksRef stopRecording_isPlaying : handlers.

(** C9, as amended.  [stopRecording] is idempotent and leaves both chunk
    buffers as they are; the silence counter it does not leave at its current
    value: it resets it to zero (line 37), whatever the recorder's state. *)
Theorem stopRecording_idempotent_resets_counter (s : State) :
  stopRecording (stopRecording s) = stopRecording s
  /\ audioChunksRef (stopRecording s) = audioChunksRef s
  /\ currentAudioChunksRef (stopRecording s) = currentAudioChunksRef s
  /\ silentChunksRef (stopRecording s) = 0
  /\ recorder_live (stopRecording s) = false.
Proof.
  repeat split; autorewrite with handlers; auto using stopRecording_again.
Qed.

(** C9, counterexample.  After one silent chunk the counter is 1; a stop
    (the user clicks again) does not leave it there. *)
Lemma stopRecording_changes_counter :
  let s := run initial (start_listening ++ [DataAvailable (mkBlob 900)]) in
  silentChunksRef s = 1
  /\ step s MicClick = stopRecording s
  /\ silentChunksRef (stopRecording s) <> silentChunksRef s.
Proof. vm_compute. repeat split; discriminate. Qed.

(** ** [processPausedAudio] *)

Section ProcessPausedAudio.

Variables (r : Render) (s : State).

Lemma processPausedAudio_wsRef : wsRef (processPausedAudio r s) = wsRef s.
Proof.
  unfold processPausedAudio.
  destruct (_ || _)%bool; [reflexivity|].
  destruct (ws_open _); reflexivity.
Qed.

Lemma processPausedAudio_mediaRecorderRef :
  mediaRecorderRef (processPausedAudio r s) = mediaRecorderRef s.
Proof.
  unfold processPausedAudio.
  destruct (_ || _)%bool; [reflexivity|].
  destruct (ws_open _); reflexivity.
Qed.

Lemma processPausedAudio_silentChunksRef :
  silentChunksRef (processPausedAudio r s) = silentChunksRef s.
Proof.
  unfold processPausedAudio.
  destruct (_ || _)%bool; [reflexivity|].
  destruct (ws_open _); reflexivity.
Qed.

Lemma processPausedAudio_audioChunksRef :
  audioChunksRef (processPausedAudio r s) = audioChunksRef s.
Proof.
  unfold processPausedAudio.
  destruct (_ || _)%bool; [reflexivity|].
  destruct (ws_open _); reflexivity.
Qed.


(** Past the guard, on an open socket: marker, payload, empty buffer. *)
Lemma processPausedAudio_flush :
  currentAudioChunksRef s <> [] ->
  isProcessing r = false ->
  ws_open s = true ->
  wire (processPausedAudio r s)
    = wire s ++ [Text "PAUSE_PROCESSING"; Binary (currentAudioChunksRef s)]
  /\ currentAudioChunksRef (processPausedAudio r s) = []
  /\ isProcessing (react (processPausedAudio r s)) = true.
Proof.
  intros Hne Hp Hws. unfold processPausedAudio.
  destruct (currentAudioChunksRef s) as [|c cs] eqn:Hc; [congruence|].
  rewrite Hp. simpl.
  replace (ws_open (setIsProcessing true s)) with true by (symmetry; exact Hws).
  unfold_updates. simpl. rewrite Hc, <- app_assoc. auto.
Qed.


End ProcessPausedAudio.

#[local] Hint Rewrite processPausedAudio_wsRef processPausedAudio_mediaRecorderRef
  processPausedAudio_silentChunksRef processPausedAudio_audioChunksRef
  : handlers.

(** ** [ondataavailable] *)

Arguments stopRecording : simpl never.
Arguments processPausedAudio : simpl never.

Ltac split_ifs :=
  repeat match goal with
         | |- context [if ?b then _ else _] => destruct b eqn:?
         end.

Section OnDataAvailable.

Variables (r : Render) (s : State) (d : Blob).

Lemma ondataavailable_wsRef : wsRef (ondataavailable r s d) = wsRef s.
Proof.
  unfold ondataavailable. cbv zeta.
  split_ifs; autorewrite with handlers; reflexivity.
Qed.

Lemma ondataavailable_ws_open : ws_open (ondataavailable r s d) = ws_open s.
Proof. unfold ws_open. now rewrite ondataavailable_wsRef. Qed.

(** Line 177: every chunk goes to [audioChunksRef]. *)
Lemma ondataavailable_audioChunksRef :
  audioChunksRef (ondataavailable r s d) = audioChunksRef s ++ [d].
Proof.
  unfold ondataavailable. cbv zeta.
  split_ifs; autorewrite with handlers; reflexivity.
Qed.

(** Lines 184-187: a handler whose closure has [isPlaying] or
    [isProcessing] set returns before it classifies the chunk. *)
Lemma ondataavailable_withheld :
  (isPlaying r || isProcessing r)%bool = true ->
  ondataavailable r s d
  = let s1 := with_audioChunksRef (audioChunksRef s ++ [d]) s in
    if isProcessing r then s1
    else with_currentAudioChunksRef (currentAudioChunksRef s ++ [d]) s1.
Proof.
  intros H. unfold ondataavailable. cbv zeta. rewrite H.
  destruct (isProcessing r); reflexivity.
Qed.

Hypothesis Hplaying : isPlaying r = false.
Hypothesis Hprocessing : isProcessing r = false.

(** Lines 189-193: the socket is not open. *)
Lemma ondataavailable_not_open :
  ws_open s = false ->
  recorder_live (ondataavailable r s d) = false
  /\ silentChunksRef (ondataavailable r s d) = 0
  /\ wire (ondataavailable r s d) = wire s.
Proof.
  intros Hws. unfold ondataavailable. cbv zeta.
  rewrite Hplaying, Hprocessing. cbn.
  replace (ws_open _) with false by (symmetry; exact Hws). cbn.
  autorewrite with handlers. auto.
Qed.

Hypothesis Hopen : ws_open s = true.

(** Lines 215-228: a speech chunk. *)
Lemma ondataavailable_speech :
  isSilent d = false ->
  silentChunksRef (ondataavailable r s d) = 0
  /\ mediaRecorderRef (ondataavailable r s d) = mediaRecorderRef s
  /\ wire (ondataavailable r s d) = wire s ++ [Binary [d]]
  /\ currentAudioChunksRef (ondataavailable r s d)
     = currentAudioChunksRef s ++ [d].
Proof.
  intros Hd. unfold ondataavailable. cbv zeta.
  rewrite Hplaying, Hprocessing, Hd. cbn.
  replace (ws_open _) with true by (symmetry; exact Hopen). cbn.
  destruct (isPaused r); auto.
Qed.

(** Lines 197-214: a silent chunk that leaves the counter below
    [SILENCE_THRESHOLD]. *)
Lemma ondataavailable_silent_below :
  isSilent d = true ->
  silentChunksRef s + 1 < SILENCE_THRESHOLD ->
  silentChunksRef (ondataavailable r s d) = silentChunksRef s + 1
  /\ mediaRecorderRef (ondataavailable r s d) = mediaRecorderRef s.
Proof.
  intros Hd Hlt. unfold ondataavailable. cbv zeta.
  rewrite Hplaying, Hprocessing, Hd. cbn.
  replace (ws_open _) with true by (symmetry; exact Hopen). cbn.
  destruct (_ && _)%bool; autorewrite with handlers; cbn.
  all: destruct (Z.leb_spec SILENCE_THRESHOLD (silentChunksRef s + 1));
    [lia|]; autorewrite with handlers; auto.
Qed.

(** Lines 209-214: the silent chunk that brings the counter to
    [SILENCE_THRESHOLD]. *)
Lemma ondataavailable_silent_reach :
  isSilent d = true ->
  SILENCE_THRESHOLD <= silentChunksRef s + 1 ->
  silentChunksRef (ondataavailable r s d) = 0
  /\ recorder_live (ondataavailable r s d) = false.
Proof.
  intros Hd Hge. unfold ondataavailable. cbv zeta.
  rewrite Hplaying, Hprocessing, Hd. cbn.
  replace (ws_open _) with true by (symmetry; exact Hopen). cbn.
  destruct (_ && _)%bool; autorewrite with handlers; cbn.
  all: destruct (Z.leb_spec SILENCE_THRESHOLD (silentChunksRef s + 1));
    [|lia]; autorewrite with handlers; auto.
Qed.

End OnDataAvailable.

(** ** Chunk sequences *)

Lemma feed_snoc (r : Render) (s : State) (ds : list Blob) (d : Blob) :
  feed r s (ds ++ [d]) = ondataavailable r (feed r s ds) d.
Proof. unfold feed. now rewrite fold_left_app. Qed.

Lemma feed_cons (r : Render) (s : State) (d : Blob) (ds : list Blob) :
  feed r s (d :: ds) = feed r (ondataavailable r s d) ds.
Proof. reflexivity. Qed.

Lemma feed_ws_open (r : Render) (ds : list Blob) :
  forall s, ws_open (feed r s ds) = ws_open s.
Proof.
  induction ds as [|d ds IH]; intros s; [reflexivity|].
  rewrite feed_cons, IH. apply ondataavailable_ws_open.
Qed.

Lemma recorder_live_ext (s s' : State) :
  mediaRecorderRef s' = mediaRecorderRef s -> recorder_live s' = recorder_live s.
Proof. unfold recorder_live. now intros ->. Qed.

Lemma trailing_silent_snoc (ds : list Blob) (d : Blob) :
  trailing_silent (ds ++ [d])
  = if isSilent d then trailing_silent ds + 1 else 0.
Proof.
  unfold trailing_silent. rewrite rev_unit. cbn.
  destruct (isSilent d); [|reflexivity]. lia.
Qed.

Lemma trailing_silent_nonneg (ds : list Blob) : 0 <= trailing_silent ds.
Proof. unfold trailing_silent. lia. Qed.

Section Feed.

Variable r : Render.
Hypothesis Hplaying : isPlaying r = false.
Hypothesis Hprocessing : isProcessing r = false.


(** The counter after any sequence of classified chunks. *)
Lemma feed_silentChunksRef (s : State) (ds : list Blob) :
  ws_open s = true ->
  silentChunksRef s = 0 ->
  silentChunksRef (feed r s ds) = trailing_silent ds mod SILENCE_THRESHOLD.
Proof.
  intros Hws H0. induction ds as [|d ds IH] using rev_ind.
  - cbn. now rewrite H0.
  - rewrite feed_snoc, trailing_silent_snoc.
    assert (Hws' : ws_open (feed r s ds) = true)
      by now rewrite feed_ws_open.
    assert (Hrange : 0 <= silentChunksRef (feed r s ds) < SILENCE_THRESHOLD).
    { rewrite IH. apply Z.mod_pos_bound. reflexivity. }
    destruct (isSilent d) eqn:Hd.
    + rewrite Zplus_mod, <- IH.
      destruct (Z_lt_le_dec (silentChunksRef (feed r s ds) + 1)
                            SILENCE_THRESHOLD) as [Hlt | Hge].
      * destruct (ondataavailable_silent_below r (feed r s ds) d
                    Hplaying Hprocessing Hws' Hd Hlt) as [-> _].
        rewrite (Z.mod_small 1) by (unfold SILENCE_THRESHOLD; lia).
        rewrite Z.mod_small; lia.
      * destruct (ondataavailable_silent_reach r (feed r s ds) d
                    Hplaying Hprocessing Hws' Hd Hge) as [-> _].
        replace (silentChunksRef (feed r s ds)) with 4
          by (unfold SILENCE_THRESHOLD in *; lia).
        reflexivity.
    + destruct (ondataavailable_speech r (feed r s ds) d
                  Hplaying Hprocessing Hws' Hd) as [-> _].
      reflexivity.
Qed.

End Feed.

Section FeedThresholds.

Variable r : Render.


Hypothesis Hplaying : isPlaying r = false.
Hypothesis Hprocessing : isProcessing r = false.



End FeedThresholds.




(** C6, as amended.  For a handler whose closure has neither [isPlaying] nor
    [isProcessing] set, on an open socket and from a counter at zero: after
    every chunk the counter equals the number of trailing silent chunks
    modulo [SILENCE_THRESHOLD] (the auto-stop resets it, so it counts the
    silent chunks since the last speech chunk or the last auto-stop); it
    equals the trailing count itself while that is below the threshold; it is
    never negative; and a speech chunk sets it to zero at once. *)
Theorem silence_run_counts_trailing_silence
    (r : Render) (s : State) (ds : list Blob) :
  isPlaying r = false ->
  isProcessing r = false ->
  ws_open s = true ->
  silentChunksRef s = 0 ->
  silentChunksRef (feed r s ds) = trailing_silent ds mod SILENCE_THRESHOLD
  /\ (trailing_silent ds < SILENCE_THRESHOLD ->
      silentChunksRef (feed r s ds) = trailing_silent ds)
  /\ 0 <= silentChunksRef (feed r s ds) < SILENCE_THRESHOLD
  /\ (forall d, isSilent d = false ->
        silentChunksRef (feed r s (ds ++ [d])) = 0).
Proof.
  intros Hpl Hpr Hws H0.
  pose proof (feed_silentChunksRef r Hpl Hpr s ds Hws H0) as Hc.
  repeat split.
  - exact Hc.
  - intros Hlt. rewrite Hc. apply Z.mod_small.
    split; [apply trailing_silent_nonneg | exact Hlt].
  - rewrite Hc. apply Z.mod_pos_bound. reflexivity.
  - rewrite Hc. apply Z.mod_pos_bound. reflexivity.
  - intros d Hd.
    rewrite (feed_silentChunksRef r Hpl Hpr s (ds ++ [d]) Hws H0),
      trailing_silent_snoc, Hd.
    reflexivity.
Qed.

(** C6, witness: Scenario A of the specification. *)
Lemma silence_run_counts_trailing_silence_witness :
  silentChunksRef (feed initial_render listening scenarioA_chunks) = 3.
Proof.
  destruct (silence_run_counts_trailing_silence
              initial_render listening scenarioA_chunks)
    as (_ & H & _);
    [reflexivity | reflexivity | reflexivity | reflexivity |].
  rewrite H; [reflexivity | vm_compute; reflexivity].
Defined.

(** C6, counterexample.  Five silent chunks in a row, each of them
    classified (the flush sent at the second one is acknowledged before the
    third arrives): the trailing silent count is 5, the counter is 0. *)
Lemma silence_run_reset_by_auto_stop :
  let s := run initial
             (start_listening
                ++ map DataAvailable (chunks [900; 800])
                ++ [WsMessage (DataString "[Status] PAUSE_PROCESSED")]
                ++ map DataAvailable (chunks [950; 10; 0])) in
  trailing_silent (chunks [900; 800; 950; 10; 0]) = 5
  /\ audioChunksRef s = chunks [900; 800; 950; 10; 0]
  /\ silentChunksRef s = 0
  /\ silentChunksRef s <> trailing_silent (chunks [900; 800; 950; 10; 0]).
Proof. vm_compute. repeat split; discriminate. Qed.

(** ** Buffering of chunks *)




(** ** Playback *)

Lemma playAudio_recorder_live (s : State) : recorder_live (playAudio s) = false.
Proof.
  unfold playAudio. cbv zeta.
  change (recorder_live (stopRecording s) = false).
  apply stopRecording_recorder_live.
Qed.

(** C1, as amended.  Starting the playback of a reply stops capture first:
    right after [playAudio] the recorder held by [mediaRecorderRef] is not
    live, [isPlaying] is set, and nothing was sent.  While [isPlaying] is
    set, a click on the button changes nothing: it starts no capture, asks
    for no microphone and opens no socket.  (Capture can still be active
    while [isPlaying] is set: the status [AI_SPEAKING] sets the flag without
    stopping the recorder, and a microphone request that is granted after
    the reply began to play starts the recorder then.) *)
Theorem playback_stops_capture (s : State) :
  (recorder_live (playAudio s) = false
   /\ isPlaying (react (playAudio s)) = true
   /\ wire (playAudio s) = wire s)
  /\ (isPlaying (react s) = true -> step s MicClick = s).
Proof.
  repeat split.
  - apply playAudio_recorder_live.
  - unfold playAudio. cbv zeta.
    change (wire (stopRecording s) = wire s). apply stopRecording_wire.
  - cbn [step]. unfold handleMicClick. now intros ->.
Qed.

(** C1, witness: while the reply plays, a click does nothing. *)
Lemma playback_stops_capture_witness :
  step replying MicClick = replying.
Proof.
  destruct (playback_stops_capture replying) as (_ & Hclick).
  apply Hclick. reflexivity.
Defined.

(** C1, counterexample.  The status [AI_SPEAKING] arrives while the session
    is listening: [isPlaying] is set and the recorder is still recording with
    its tracks live. *)
Lemma capture_active_while_speaking :
  let s := run initial
             (start_listening
                ++ [WsMessage (DataString "[Status] AI_SPEAKING")]) in
  isPlaying (react s) = true
  /\ recorder_live s = true
  /\ option_map tracksLive (mediaRecorderRef s) = Some true.
Proof. vm_compute. repeat split. Qed.

(** C3, as amended.  When an audio element plays to its end, the text frame
    [CLIENT_DONE_PLAYING] is sent, once, if the socket is open, and nothing
    else changes; [isPlaying] stays set until the service answers.  When
    playback fails ([onerror], or the promise of [play()] rejecting) nothing
    is sent: [isPlaying] is cleared locally and a notice is shown. *)
Theorem playback_end_reports (s : State) :
  (ws_open s = true ->
   audio_onended s = send (Text "CLIENT_DONE_PLAYING") s
   /\ wire (audio_onended s) = wire s ++ [Text "CLIENT_DONE_PLAYING"]
   /\ isPlaying (react (audio_onended s)) = isPlaying (react s))
  /\ (ws_open s = false -> audio_onended s = s)
  /\ (wire (audio_onerror s) = wire s
      /\ isPlaying (react (audio_onerror s)) = false
      /\ aiResponse (react (audio_onerror s)) = "Error playing AI response.")
  /\ (wire (audio_play_catch s) = wire s
      /\ isPlaying (react (audio_play_catch s)) = false
      /\ aiResponse (react (audio_play_catch s))
         = "Could not play AI response.").
Proof.
  unfold audio_onended. split; [|split].
  - intros Hws. rewrite Hws. repeat split.
  - intros Hws. now rewrite Hws.
  - repeat split.
Qed.

(** C3, witness: the reply of [replying] plays to its end on an open
    socket. *)
Lemma playback_end_reports_witness :
  wire (audio_onended replying) = wire replying ++ [Text "CLIENT_DONE_PLAYING"].
Proof.
  destruct (playback_end_reports replying) as (H & _).
  destruct H as (_ & H & _); [reflexivity|]. exact H.
Defined.

(** C3, counterexample.  The reply fails to play on an open socket: no
    [CLIENT_DONE_PLAYING] is sent, whether the element reports an error or
    the promise of [play()] rejects. *)
Lemma playback_failure_sends_nothing :
  ws_open replying = true
  /\ audible replying = 1%nat
  /\ wire (step replying AudioError) = wire replying
  /\ wire (step replying AudioPlayRejected) = wire replying
  /\ ~ In (Text "CLIENT_DONE_PLAYING") (wire (step replying AudioError))
  /\ ~ In (Text "CLIENT_DONE_PLAYING")
          (wire (step replying AudioPlayRejected)).
Proof. vm_compute. intuition auto. Qed.

(** ** Transport faults *)

(** C2, as amended.  When the socket closes or reports an error, the handler
    clears [isRecording] and [isPlaying] and shows a connectivity notice (and
    [onclose] clears [wsRef]).  It stops neither the recorder nor the audio
    that is playing: [mediaRecorderRef] and the playing elements are as
    before.  After a close, the recorder is stopped by the next chunk whose
    handler classifies chunks and so finds the socket gone (line 191). *)
Theorem transport_fault_resets_flags (s : State) :
  (isRecording (react (ws_onclose s)) = false
   /\ isPlaying (react (ws_onclose s)) = false
   /\ aiResponse (react (ws_onclose s))
      = "Connection to server lost. Please refresh or try again."
   /\ wsRef (ws_onclose s) = None
   /\ mediaRecorderRef (ws_onclose s) = mediaRecorderRef s
   /\ audible (ws_onclose s) = audible s)
  /\ (isRecording (react (ws_onerror s)) = false
      /\ isPlaying (react (ws_onerror s)) = false
      /\ aiResponse (react (ws_onerror s))
         = "WebSocket connection error. Please refresh or try again."
      /\ mediaRecorderRef (ws_onerror s) = mediaRecorderRef s
      /\ audible (ws_onerror s) = audible s)
  /\ (forall r d,
        isPlaying r = false ->
        isProcessing r = false ->
        recorder_live (ondataavailable r (ws_onclose s) d) = false).
Proof.
  split; [repeat split|split].
  - unfold ws_onerror. cbv zeta.
    destruct (wsRef _) as [ws|]; [destruct (readyState ws)|]; repeat split.
  - intros r d Hpl Hpr.
    now apply ondataavailable_not_open.
Qed.

(** C2, witness: the socket of a listening session closes, and the next
    chunk stops the recorder. *)
Lemma transport_fault_resets_flags_witness :
  recorder_live
    (ondataavailable initial_render (ws_onclose listening) (mkBlob 1200))
  = false.
Proof.
  destruct (transport_fault_resets_flags listening) as (_ & _ & H).
  apply H; reflexivity.
Defined.

(** C2, counterexample.  The socket closes while the session is listening:
    the recorder keeps recording with its tracks live.  It closes while a
    reply is playing: the reply keeps playing. *)
Lemma transport_close_stops_nothing :
  recorder_live (step listening WsClose) = true
  /\ option_map tracksLive (mediaRecorderRef (step listening WsClose))
     = Some true
  /\ audible (step replying WsClose) = 1%nat.
Proof. vm_compute. repeat split. Qed.

(** ** Status messages *)

Lemma handleWSMessage_CLIENT_READY (s : State) :
  handleWSMessage (DataString "[Status] CLIENT_READY") s
  = setIsProcessing false (setIsPlaying false s).
Proof. reflexivity. Qed.

(** C7, as amended.  The status [CLIENT_READY] clears [isPlaying] and
    [isProcessing], which enables the button again, and starts no capture:
    [isRecording], the recorder and the pending [getUserMedia] calls are as
    before.  Receiving it a second time changes nothing, and receiving it
    when both flags are already clear changes nothing. *)
Theorem client_ready_clears_flags (s : State) :
  let ready := handleWSMessage (DataString "[Status] CLIENT_READY") in
  isPlaying (react (ready s)) = false
  /\ isProcessing (react (ready s)) = false
  /\ isRecording (react (ready s)) = isRecording (react s)
  /\ mediaRecorderRef (ready s) = mediaRecorderRef s
  /\ awaitingMedia (ready s) = awaitingMedia s
  /\ ready (ready s) = ready s
  /\ (isPlaying (react s) = false -> isProcessing (react s) = false ->
      ready s = s).
Proof.
  cbv zeta. rewrite !handleWSMessage_CLIENT_READY.
  repeat split.
  destruct s as [[t a rec pl pa pr] ws mr ac sc cc w au aw].
  cbn. intros -> ->. reflexivity.
Qed.

(** C7, witness: a listening session with both flags clear receives
    [CLIENT_READY]. *)
Lemma client_ready_clears_flags_witness :
  handleWSMessage (DataString "[Status] CLIENT_READY") listening = listening.
Proof.
  destruct (client_ready_clears_flags listening) as (_ & _ & _ & _ & _ & _ & H).
  apply H; reflexivity.
Defined.

(** C7, counterexample.  [CLIENT_READY] arrives while the client waits for
    the service after a reply: no capture is started; the recorder stays
    inactive, [isRecording] stays clear and no [getUserMedia] call is
    pending. *)
Lemma client_ready_starts_no_capture :
  let s := step awaiting_reply
                (WsMessage (DataString "[Status] CLIENT_READY")) in
  isPlaying (react awaiting_reply) = true
  /\ recorder_live awaiting_reply = false
  /\ wire awaiting_reply = [Text "CLIENT_DONE_PLAYING"]
  /\ isPlaying (react s) = false
  /\ recorder_live s = false
  /\ isRecording (react s) = false
  /\ awaitingMedia s = [].
Proof. vm_compute. repeat split. Qed.

(** ** Repeated flushes *)

(** C4, the code at Scenario A.  The fourth chunk brings the counter to
    [PAUSE_THRESHOLD] and is flushed with the three before it; the fifth
    chunk, silent again, triggers a second flush: the handler tests the
    [isPaused] of its closure, which [setIsPaused(true)] does not change. *)
Lemma scenarioA_flushes_twice :
  wire scenarioA
  = [Binary [mkBlob 1200];
     Binary [mkBlob 1100];
     Text "PAUSE_PROCESSING";
     Binary [mkBlob 1200; mkBlob 1100; mkBlob 900; mkBlob 800];
     Text "PAUSE_PROCESSING";
     Binary [mkBlob 950]]
  /\ silentChunksRef scenarioA = 3
  /\ isPaused (react scenarioA) = true
  /\ option_map (fun mr => isPaused (mr_render mr)) (mediaRecorderRef scenarioA)
     = Some false.
Proof. vm_compute. repeat split. Qed.

(** C10, the code at Scenario A.  After the fourth chunk a flush is in
    progress: [isProcessing] is set and no [PAUSE_PROCESSED] has arrived.
    The fifth chunk runs the flush again and it sends a marker and a
    payload: [processPausedAudio] tests the [isProcessing] of its closure. *)
Lemma flush_repeated_while_in_progress :
  let s := run initial
             (start_listening
                ++ map DataAvailable (chunks [1200; 1100; 900; 800])) in
  isProcessing (react s) = true
  /\ currentAudioChunksRef s = []
  /\ wire (step s (DataAvailable (mkBlob 950)))
     = wire s ++ [Text "PAUSE_PROCESSING"; Binary [mkBlob 950]].
Proof. vm_compute. repeat split. Qed.

(** ** The closures of reachable states *)

Lemma stopRecording_recorder_render (s : State) :
  recorder_render (stopRecording s) = recorder_render s.
Proof.
  unfold stopRecording, recorder_render.
  destruct (mediaRecorderRef s) as [mr|] eqn:Hmr; cbn.
  - destruct (mr_state mr); cbn; now rewrite ?Hmr.
  - now rewrite Hmr.
Qed.

Lemma stopRecording_awaitingMedia (s : State) :
  awaitingMedia (stopRecording s) = awaitingMedia s.
Proof.
  unfold stopRecording.
  destruct (mediaRecorderRef s) as [mr|]; [destruct (mr_state mr)|];
    reflexivity.
Qed.

Lemma processPausedAudio_awaitingMedia (r : Render) (s : State) :
  awaitingMedia (processPausedAudio r s) = awaitingMedia s.
Proof.
  unfold processPausedAudio.
  destruct (_ || _)%bool; [reflexivity|].
  destruct (ws_open _); reflexivity.
Qed.

Lemma closures_ext (s s' : State) :
  wsRef s' = wsRef s ->
  recorder_render s' = recorder_render s ->
  awaitingMedia s' = awaitingMedia s ->
  closures s' = closures s.
Proof.
  unfold closures, recorder_render. intros -> Hm ->.
  destruct (mediaRecorderRef s'), (mediaRecorderRef s); cbn in Hm;
    congruence.
Qed.

Lemma stopRecording_closures (s : State) :
  closures (stopRecording s) = closures s.
Proof.
  apply closures_ext;
    auto using stopRecording_wsRef, stopRecording_recorder_render,
      stopRecording_awaitingMedia.
Qed.

Lemma ondataavailable_closures (r : Render) (s : State) (d : Blob) :
  closures (ondataavailable r s d) = closures s.
Proof.
  apply closures_ext.
  - apply ondataavailable_wsRef.
  - unfold ondataavailable. cbv zeta.
    split_ifs; rewrite ?stopRecording_recorder_render;
      unfold recorder_render; autorewrite with handlers; reflexivity.
  - unfold ondataavailable. cbv zeta.
    split_ifs;
      rewrite ?stopRecording_awaitingMedia, ?processPausedAudio_awaitingMedia;
      reflexivity.
Qed.

Lemma handleWSMessage_closures (m : MessageData) (s : State) :
  closures (handleWSMessage m s) = closures s.
Proof.
  destruct m as [d | b]; cbn [handleWSMessage].
  - split_ifs; reflexivity.
  - unfold playAudio. cbv zeta.
    change (closures (stopRecording s) = closures s).
    apply stopRecording_closures.
Qed.

(** Every step keeps the closures among those already there and the render
    of the step itself, the latter only through a click that passed the
    [isPlaying] test of line 244. *)
Lemma step_closures (s : State) (e : Event) :
  forall r, In r (closures (step s e)) ->
            In r (closures s) \/ (r = react s /\ isPlaying r = false).
Proof.
  intros r. destruct e; cbn [step].
  - unfold handleMicClick.
    destruct (isPlaying (react s)) eqn:Hpl; [auto|].
    destruct (isRecording (react s)); cbn [negb];
      [rewrite stopRecording_closures; auto|].
    unfold closures, setupMediaRecorder.
    destruct (wsRef s) as [ws|] eqn:Hws; [destruct (readyState ws)|];
      cbn; rewrite ?Hws; cbn;
      rewrite ?in_app_iff; cbn; intuition (subst; auto).
  - unfold closures, ws_onopen, setupMediaRecorder.
    destruct (wsRef s) as [ws|] eqn:Hws; [destruct (readyState ws)|];
      cbn; rewrite ?Hws; cbn; rewrite ?in_app_iff; cbn; intuition (subst; auto).
  - destruct (ws_open s); [rewrite handleWSMessage_closures|]; auto.
  - unfold closures, ws_onclose.
    destruct (wsRef s) as [ws|] eqn:Hws; cbn; rewrite ?Hws; cbn; auto.
  - unfold closures, ws_onerror.
    destruct (wsRef s) as [ws|] eqn:Hws; cbn; rewrite ?Hws; cbn; auto.
    destruct (readyState ws); cbn; rewrite ?Hws; cbn; auto.
  - unfold closures, setupMediaRecorder_granted.
    destruct (awaitingMedia s) as [|r0 rest] eqn:Haw; cbn; rewrite ?Haw; auto.
    destruct (wsRef s), (mediaRecorderRef s); cbn;
      rewrite ?in_app_iff; cbn; intuition (subst; auto).
  - unfold closures, setupMediaRecorder_catch.
    destruct (awaitingMedia s) as [|r0 rest] eqn:Haw; cbn; rewrite ?Haw; auto.
    rewrite !in_app_iff; cbn; intuition (subst; auto).
  - destruct (mediaRecorderRef s) as [mr|]; [destruct (mr_state mr)|];
      rewrite ?ondataavailable_closures; auto.
  - unfold audio_onended.
    destruct (audible s); [auto|]. destruct (ws_open _); auto.
  - destruct (audible s); auto.
  - destruct (audible s); auto.
Qed.

(** No handler of a reachable state closes over a render in which
    [isPlaying] is set: the clicks that create them return first. *)
Lemma reachable_closures_not_playing (s : State) :
  reachable s -> Forall (fun r => isPlaying r = false) (closures s).
Proof.
  intros [es ->]. unfold run.
  induction es as [|e es IH] using rev_ind.
  - constructor.
  - rewrite fold_left_app. cbn [fold_left].
    rewrite Forall_forall in *. intros r Hr.
    apply step_closures in Hr as [Hr | [_ Hr]]; auto.
Qed.

(** ** What the stale bindings let through *)

(** A handler whose closure has the three flags clear flushes on every
    silent chunk that finds the counter at or past [PAUSE_THRESHOLD],
    whatever the cells [isPaused] and [isProcessing] hold by then. *)
Lemma ondataavailable_flushes_at_each_silent_chunk
    (r : Render) (s : State) (d : Blob) :
  isPlaying r = false ->
  isProcessing r = false ->
  isPaused r = false ->
  ws_open s = true ->
  isSilent d = true ->
  PAUSE_THRESHOLD <= silentChunksRef s + 1 ->
  wire (ondataavailable r s d)
  = wire s ++ [Text "PAUSE_PROCESSING";
               Binary (currentAudioChunksRef s ++ [d])].
Proof.
  intros Hpl Hpr Hpa Hws Hd Hge. unfold ondataavailable. cbv zeta.
  rewrite Hpl, Hpr, Hpa, Hd. cbn.
  replace (ws_open _) with true by (symmetry; exact Hws). cbn.
  destruct (Z.leb_spec PAUSE_THRESHOLD (silentChunksRef s + 1)); [|lia].
  cbn.
  match goal with
  | |- context [processPausedAudio r ?x] =>
      destruct (processPausedAudio_flush r x) as (Hw & _ & _);
      [ cbn; now destruct (currentAudioChunksRef s) | exact Hpr | exact Hws | ]
  end.
  destruct (_ <=? _)%Z; autorewrite with handlers; exact Hw.
Qed.

(** When [AI_SPEAKING] arrives in a listening session, the recorder's handler
    still closes over a render with [isPlaying] clear, so a speech chunk
    goes out although the cell [isPlaying] is set. *)
Lemma speech_chunk_sent_while_isPlaying :
  let s := run initial
             (start_listening
                ++ [WsMessage (DataString "[Status] AI_SPEAKING")]) in
  isPlaying (react s) = true
  /\ option_map isPlaying (recorder_render s) = Some false
  /\ wire (step s (DataAvailable (mkBlob 1200)))
     = wire s ++ [Binary [mkBlob 1200]].
Proof. vm_compute. repeat split. Qed.

(** * The component as a whole *)

(** ** Shapes of the two inner functions *)

Lemma stopRecording_cases (s : State) :
  (recorder_live s = false /\ stopRecording s = with_silentChunksRef 0 s)
  \/ (recorder_live s = true
      /\ isRecording (react (stopRecording s)) = false
      /\ isPaused (react (stopRecording s)) = false
      /\ isProcessing (react (stopRecording s)) = false).
Proof.
  unfold stopRecording, recorder_live.
  destruct (mediaRecorderRef s) as [mr|]; [destruct (mr_state mr)|]; cbn; auto.
Qed.

Lemma stopRecording_audible (s : State) :
  audible (stopRecording s) = audible s.
Proof.
  unfold stopRecording.
  destruct (mediaRecorderRef s) as [mr|]; [destruct (mr_state mr)|];
    reflexivity.
Qed.

(** The three ways [processPausedAudio] can go. *)
Lemma processPausedAudio_cases (r : Render) (s : State) :
  processPausedAudio r s = s
  \/ (ws_open s = false /\ processPausedAudio r s = setIsProcessing true s)
  \/ (ws_open s = true
      /\ currentAudioChunksRef s <> []
      /\ isProcessing r = false
      /\ processPausedAudio r s
         = with_currentAudioChunksRef []
             (send (Binary (currentAudioChunksRef s))
                (send (Text "PAUSE_PROCESSING") (setIsProcessing true s)))).
Proof.
  unfold processPausedAudio.
  destruct (currentAudioChunksRef s) as [|c cs] eqn:Hc; cbn; [auto|].
  destruct (isProcessing r); cbn; [auto|].
  change (ws_open (setIsProcessing true s)) with (ws_open s).
  destruct (ws_open s); [|auto].
  right. right. repeat split; auto; [discriminate | now rewrite Hc].
Qed.

Lemma processPausedAudio_react_frame (r : Render) (s : State) :
  isRecording (react (processPausedAudio r s)) = isRecording (react s)
  /\ isPlaying (react (processPausedAudio r s)) = isPlaying (react s)
  /\ isPaused (react (processPausedAudio r s)) = isPaused (react s)
  /\ audible (processPausedAudio r s) = audible s.
Proof.
  destruct (processPausedAudio_cases r s) as [-> | [[_ ->] | (_ & _ & _ & ->)]];
    auto.
Qed.

(** [ondataavailable] is a run of updates that touch neither the socket, the
    recorder, the pending setups, [isRecording], [isPlaying] nor the playing
    audio, followed or not by one call of [stopRecording]. *)
Lemma ondataavailable_shape (r : Render) (s : State) (d : Blob) :
  exists s',
    (ondataavailable r s d = s' \/ ondataavailable r s d = stopRecording s')
    /\ wsRef s' = wsRef s
    /\ mediaRecorderRef s' = mediaRecorderRef s
    /\ awaitingMedia s' = awaitingMedia s
    /\ audible s' = audible s
    /\ isRecording (react s') = isRecording (react s)
    /\ isPlaying (react s') = isPlaying (react s).
Proof.
  unfold ondataavailable. cbv zeta.
  split_ifs;
    match goal with
    | |- exists s', (stopRecording ?y = _ \/ _) /\ _ =>
        exists y; split; [right; reflexivity|]
    | |- exists s', (?x = _ \/ _) /\ _ =>
        exists x; split; [left; reflexivity|]
    end;
    try match goal with
        | |- context [processPausedAudio ?r ?x] =>
            destruct (processPausedAudio_react_frame r x) as (-> & -> & _ & ->)
        end;
    autorewrite with handlers;
    rewrite ?processPausedAudio_awaitingMedia; repeat split.
Qed.

(** ** What one chunk does to the wire and to the utterance buffer *)

Lemma ondataavailable_outcome (r : Render) (s : State) (d : Blob) :
  isProcessing r = false ->
  (wire (ondataavailable r s d) = wire s
   /\ currentAudioChunksRef (ondataavailable r s d)
      = currentAudioChunksRef s ++ [d]
   /\ (isPlaying r = true \/ ws_open s = false \/ isSilent d = true))
  \/ (ws_open s = true /\ isPlaying r = false /\ isSilent d = false
      /\ wire (ondataavailable r s d) = wire s ++ [Binary [d]]
      /\ currentAudioChunksRef (ondataavailable r s d)
         = currentAudioChunksRef s ++ [d])
  \/ (ws_open s = true /\ isPlaying r = false /\ isSilent d = true
      /\ wire (ondataavailable r s d)
         = wire s ++ [Text "PAUSE_PROCESSING";
                      Binary (currentAudioChunksRef s ++ [d])]
      /\ currentAudioChunksRef (ondataavailable r s d) = []).
Proof.
  intros Hp. unfold ondataavailable. cbv zeta. rewrite Hp. cbn.
  destruct (isPlaying r); cbn; [auto|].
  change (ws_open _) with (ws_open s).
  destruct (ws_open s) eqn:Hws; cbn;
    [|left; autorewrite with handlers; auto].
  destruct (isSilent d) eqn:Hd.
  - match goal with
    | |- context [if ?c then processPausedAudio r ?x else ?y] =>
        destruct c;
        [destruct (processPausedAudio_cases r x)
           as [-> | [[Hx _] | (_ & _ & _ & ->)]];
         [ | change (ws_open x) with (ws_open s) in Hx; congruence | ] | ]
    end;
      match goal with
      | |- context [if ?c then stopRecording ?x else _] => destruct c
      end; autorewrite with handlers; cbn; rewrite <- ?app_assoc; cbn;
        auto 10.
  - right. left. destruct (isPaused r); cbn; auto 10.
Qed.

(** Whatever the closure, a chunk leaves the wire as it is or appends one of
    two things, and only on an open socket. *)
Lemma ondataavailable_wire (r : Render) (s : State) (d : Blob) :
  wire (ondataavailable r s d) = wire s
  \/ (ws_open s = true
      /\ (wire (ondataavailable r s d) = wire s ++ [Binary [d]]
          \/ wire (ondataavailable r s d)
             = wire s ++ [Text "PAUSE_PROCESSING";
                          Binary (currentAudioChunksRef s ++ [d])])).
Proof.
  destruct (isProcessing r) eqn:Hp.
  - left. rewrite ondataavailable_withheld
      by (rewrite Hp; apply orb_true_r).
    cbv zeta. now rewrite Hp.
  - destruct (ondataavailable_outcome r s d Hp)
      as [(H & _) | [(Hws & _ & _ & H & _) | (Hws & _ & _ & H & _)]]; auto.
Qed.

Lemma handleWSMessage_wire (m : MessageData) (s : State) :
  wire (handleWSMessage m s) = wire s.
Proof.
  destruct m as [d | b]; cbn [handleWSMessage].
  - split_ifs; reflexivity.
  - unfold playAudio. cbv zeta.
    change (wire (stopRecording s) = wire s). apply stopRecording_wire.
Qed.

Lemma handleMicClick_wire (r : Render) (s : State) :
  wire (handleMicClick r s) = wire s.
Proof.
  unfold handleMicClick.
  destruct (isPlaying r); [reflexivity|].
  destruct (isRecording r); cbn; [apply stopRecording_wire|].
  destruct (wsRef s) as [ws|]; [destruct (readyState ws)|]; reflexivity.
Qed.

(** What one event can add to the wire. *)
Lemma step_wire (s : State) (e : Event) :
  wire (step s e) = wire s
  \/ (ws_open s = true
      /\ ((exists d, wire (step s e) = wire s ++ [Binary [d]])
          \/ (exists parts,
                 parts <> []
                 /\ wire (step s e)
                    = wire s ++ [Text "PAUSE_PROCESSING"; Binary parts])
          \/ wire (step s e) = wire s ++ [Text "CLIENT_DONE_PLAYING"])).
Proof.
  destruct e; cbn [step].
  - left. apply handleMicClick_wire.
  - left. destruct (wsRef s) as [ws|]; [destruct (readyState ws)|];
      reflexivity.
  - left. destruct (ws_open s); [apply handleWSMessage_wire | reflexivity].
  - left. destruct (wsRef s); reflexivity.
  - left. unfold ws_onerror. cbv zeta.
    destruct (wsRef s) as [ws|] eqn:Hws; [|reflexivity].
    cbn. rewrite Hws. destruct (readyState ws); reflexivity.
  - left. destruct (awaitingMedia s); reflexivity.
  - left. destruct (awaitingMedia s); reflexivity.
  - destruct (mediaRecorderRef s) as [mr|]; [destruct (mr_state mr)|]; auto.
    destruct (ondataavailable_wire (mr_render mr) s b)
      as [H | [Hws [H | H]]]; [auto | right | right]; split; auto.
    + left. eauto.
    + right. left. exists (currentAudioChunksRef s ++ [b]). split; [|exact H].
      now destruct (currentAudioChunksRef s).
  - destruct (audible s) as [|n]; [auto|]. unfold audio_onended.
    change (ws_open (with_audible n s)) with (ws_open s).
    destruct (ws_open s); auto.
  - left. destruct (audible s); reflexivity.
  - left. destruct (audible s); reflexivity.
Qed.

(** X1.  No event puts anything on the wire unless the socket held by
    [wsRef] is open when the event arrives: every [send] of the component is
    behind a test of [readyState]. *)
Theorem nothing_sent_unless_open (s : State) (e : Event) :
  ws_open s = false -> wire (step s e) = wire s.
Proof.
  intros Hws. destruct (step_wire s e) as [H | [H _]]; [exact H|].
  congruence.
Qed.

(** X1, witness: a chunk arrives after the socket of a listening session
    closed. *)
Lemma nothing_sent_unless_open_witness :
  wire (step (step listening WsClose) (DataAvailable (mkBlob 1200)))
  = wire (step listening WsClose).
Proof. apply nothing_sent_unless_open. reflexivity. Defined.

(** ** The frames on the wire *)

Lemma well_framed_app (a b : list Frame) :
  well_framed a = true -> well_framed (a ++ b) = well_framed b.
Proof.
  remember (List.length a) as n eqn:Hn.
  revert a Hn. induction n as [n IH] using lt_wf_ind. intros a Hn Ha.
  destruct a as [|[t | parts] a]; [reflexivity| |].
  - cbn in Ha |- *.
    destruct (t =? "CLIENT_DONE_PLAYING").
    + apply (IH (List.length a)); cbn in Hn; auto; lia.
    + destruct (t =? "PAUSE_PROCESSING"); [|discriminate].
      destruct a as [|[t' | [|p ps]] a]; try discriminate.
      cbn. apply (IH (List.length a)); cbn in Hn; auto; lia.
  - cbn in Ha |- *. destruct parts as [|p [|]]; try discriminate.
    apply (IH (List.length a)); cbn in Hn; auto; lia.
Qed.

Lemma flushed_app (a b : list Frame) :
  well_framed a = true -> flushed (a ++ b) = flushed a ++ flushed b.
Proof.
  remember (List.length a) as n eqn:Hn.
  revert a Hn. induction n as [n IH] using lt_wf_ind. intros a Hn Ha.
  destruct a as [|[t | parts] a]; [reflexivity| |].
  - cbn in Ha.
    destruct (t =? "CLIENT_DONE_PLAYING") eqn:Hdone.
    + apply String.eqb_eq in Hdone. subst t.
      cbn [flushed app].
      rewrite (IH (List.length a)); cbn in Hn; auto; try lia.
      destruct a as [|[|] a]; destruct b as [|[|] b]; reflexivity.
    + destruct (t =? "PAUSE_PROCESSING") eqn:Hpause; [|discriminate].
      destruct a as [|[t' | [|p ps]] a]; try discriminate.
      cbn. rewrite Hpause.
      rewrite (IH (List.length a)); cbn in Hn; auto; try lia.
      now rewrite app_assoc.
  - cbn in Ha |- *. destruct parts as [|p [|]]; try discriminate.
    apply (IH (List.length a)); cbn in Hn; auto; lia.
Qed.

Lemma streamed_app (a b : list Frame) :
  well_framed a = true -> streamed (a ++ b) = streamed a ++ streamed b.
Proof.
  remember (List.length a) as n eqn:Hn.
  revert a Hn. induction n as [n IH] using lt_wf_ind. intros a Hn Ha.
  destruct a as [|[t | parts] a]; [reflexivity| |].
  - cbn in Ha.
    destruct (t =? "CLIENT_DONE_PLAYING") eqn:Hdone.
    + apply String.eqb_eq in Hdone. subst t. cbn.
      apply (IH (List.length a)); cbn in Hn; auto; lia.
    + destruct (t =? "PAUSE_PROCESSING") eqn:Hpause; [|discriminate].
      destruct a as [|[t' | [|p ps]] a]; try discriminate.
      cbn. rewrite Hpause.
      apply (IH (List.length a)); cbn in Hn; auto; lia.
  - cbn in Ha |- *. destruct parts as [|p [|]]; try discriminate.
    cbn. f_equal.
    apply (IH (List.length a)); cbn in Hn; auto; lia.
Qed.

Lemma step_well_framed (s : State) (e : Event) :
  well_framed (wire s) = true -> well_framed (wire (step s e)) = true.
Proof.
  intros Hw.
  destruct (step_wire s e)
    as [-> | [_ [[d ->] | [(parts & Hne & ->) | ->]]]];
    rewrite ?well_framed_app by exact Hw; auto.
  destruct parts; [congruence | reflexivity].
Qed.

Lemma run_snoc (s : State) (es : list Event) (e : Event) :
  run s (es ++ [e]) = step (run s es) e.
Proof. unfold run. now rewrite fold_left_app. Qed.

Lemma run_well_framed (es : list Event) (s : State) :
  well_framed (wire s) = true -> well_framed (wire (run s es)) = true.
Proof.
  intros Hw. induction es as [|e es IH] using rev_ind; [exact Hw|].
  rewrite run_snoc. now apply step_well_framed.
Qed.

(** X2.  Whatever the events, the wire of a reachable state is a sequence of
    three kinds of items only: a binary frame of exactly one chunk, the text
    [PAUSE_PROCESSING] followed at once by a binary frame of at least one
    chunk, and the text [CLIENT_DONE_PLAYING].  No other text is ever sent,
    no marker goes without its payload, no binary frame is empty. *)
Theorem reachable_wire_well_framed (s : State) :
  reachable s -> well_framed (wire s) = true.
Proof. intros [es ->]. now apply run_well_framed. Qed.

Lemma scenarioA_reachable : reachable scenarioA.
Proof.
  exists (start_listening ++ map DataAvailable scenarioA_chunks).
  reflexivity.
Defined.

(** X2, witness: the wire of Scenario A. *)
Lemma reachable_wire_well_framed_witness :
  well_framed (wire scenarioA) = true.
Proof. apply reachable_wire_well_framed. exact scenarioA_reachable. Defined.

(** ** Where the chunks go *)

Lemma ondataavailable_well_framed (r : Render) (s : State) (d : Blob) :
  well_framed (wire s) = true ->
  well_framed (wire (ondataavailable r s d)) = true.
Proof.
  intros Hw.
  destruct (ondataavailable_wire r s d) as [-> | [_ [-> | ->]]];
    rewrite ?well_framed_app by exact Hw; auto.
  now destruct (currentAudioChunksRef s).
Qed.

Lemma feed_well_framed (r : Render) (ds : list Blob) :
  forall s, well_framed (wire s) = true ->
            well_framed (wire (feed r s ds)) = true.
Proof.
  induction ds as [|d ds IH]; intros s Hw; [exact Hw|].
  rewrite feed_cons. apply IH. now apply ondataavailable_well_framed.
Qed.

Lemma ondataavailable_conserves (r : Render) (s : State) (d : Blob) :
  isProcessing r = false ->
  well_framed (wire s) = true ->
  flushed (wire (ondataavailable r s d))
    ++ currentAudioChunksRef (ondataavailable r s d)
  = flushed (wire s) ++ currentAudioChunksRef s ++ [d].
Proof.
  intros Hp Hw.
  destruct (ondataavailable_outcome r s d Hp)
    as [(-> & -> & _) | [(_ & _ & _ & -> & ->) | (_ & _ & _ & -> & ->)]].
  - reflexivity.
  - rewrite flushed_app by exact Hw. cbn. now rewrite app_nil_r.
  - rewrite flushed_app by exact Hw. cbn. now rewrite !app_nil_r.
Qed.

(** X3.  For a handler whose closure has [isProcessing] unset, no chunk is
    lost or repeated on the way to the service through pause-flushes: at any
    moment the chunks already sent in flush payloads, followed by the chunks
    still in the utterance buffer, are exactly the chunks that were there at
    the start followed by the chunks delivered since, in order. *)
Theorem flush_payloads_conserve_chunks (r : Render) (ds : list Blob) :
  isProcessing r = false ->
  forall s,
    well_framed (wire s) = true ->
    flushed (wire (feed r s ds)) ++ currentAudioChunksRef (feed r s ds)
    = flushed (wire s) ++ currentAudioChunksRef s ++ ds.
Proof.
  intros Hp. induction ds as [|d ds IH]; intros s Hw.
  - cbn. now rewrite app_nil_r.
  - rewrite feed_cons, IH by now apply ondataavailable_well_framed.
    rewrite app_assoc, ondataavailable_conserves by assumption.
    now rewrite <- !app_assoc.
Qed.

(** X3, witness: Scenario A, where every chunk ends up in a payload. *)
Lemma flush_payloads_conserve_chunks_witness :
  flushed (wire (feed initial_render listening scenarioA_chunks))
    ++ currentAudioChunksRef (feed initial_render listening scenarioA_chunks)
  = scenarioA_chunks.
Proof.
  apply (flush_payloads_conserve_chunks initial_render scenarioA_chunks
           eq_refl listening eq_refl).
Defined.

Lemma ondataavailable_streams (r : Render) (s : State) (d : Blob) :
  isPlaying r = false ->
  isProcessing r = false ->
  ws_open s = true ->
  well_framed (wire s) = true ->
  streamed (wire (ondataavailable r s d))
  = streamed (wire s) ++ (if isSilent d then [] else [d]).
Proof.
  intros Hpl Hpr Hws Hw.
  destruct (ondataavailable_outcome r s d Hpr)
    as [(-> & _ & [H | [H | ->]])
       | [(_ & _ & -> & -> & _) | (_ & _ & -> & -> & _)]];
    try congruence.
  - now rewrite app_nil_r.
  - now rewrite streamed_app by exact Hw.
  - rewrite streamed_app by exact Hw. reflexivity.
Qed.

(** X4.  For a handler that classifies (its closure has neither [isPlaying]
    nor [isProcessing] set) on an open socket, the chunks sent as they are,
    outside flush payloads, are exactly the chunks classified speech, each
    once and in order; a silent chunk is never sent on its own.  With X3
    this means that every speech chunk reaches the service twice: at once,
    and again inside the next flush payload. *)
Theorem speech_chunks_are_streamed (r : Render) (ds : list Blob) :
  isPlaying r = false ->
  isProcessing r = false ->
  forall s,
    ws_open s = true ->
    well_framed (wire s) = true ->
    streamed (wire (feed r s ds))
    = streamed (wire s) ++ filter (fun d => negb (isSilent d)) ds.
Proof.
  intros Hpl Hpr. induction ds as [|d ds IH]; intros s Hws Hw.
  - cbn. now rewrite app_nil_r.
  - rewrite feed_cons, IH.
    + rewrite ondataavailable_streams by assumption.
      cbn [filter]. destruct (isSilent d); cbn;
        now rewrite <- ?app_assoc, ?app_nil_r.
    + now rewrite ondataavailable_ws_open.
    + now apply ondataavailable_well_framed.
Qed.

(** X4, witness: Scenario A streams its two speech chunks. *)
Lemma speech_chunks_are_streamed_witness :
  streamed (wire (feed initial_render listening scenarioA_chunks))
  = chunks [1200; 1100].
Proof.
  apply (speech_chunks_are_streamed initial_render scenarioA_chunks
           eq_refl eq_refl listening eq_refl eq_refl).
Defined.

(** ** The silence counter *)

Lemma ondataavailable_silentChunksRef (r : Render) (s : State) (d : Blob) :
  silentChunksRef (ondataavailable r s d) = silentChunksRef s
  \/ silentChunksRef (ondataavailable r s d) = 0
  \/ (silentChunksRef (ondataavailable r s d) = silentChunksRef s + 1
      /\ silentChunksRef s + 1 < SILENCE_THRESHOLD).
Proof.
  unfold ondataavailable. cbv zeta.
  destruct (isPlaying r || isProcessing r)%bool.
  { left. destruct (negb (isProcessing r)); reflexivity. }
  destruct (negb (ws_open _)); [autorewrite with handlers; auto|].
  destruct (isSilent d).
  - match goal with
    | |- context [if ?c then processPausedAudio r ?x else ?y] =>
        destruct c
    end; autorewrite with handlers; cbn;
      destruct (negb (isProcessing r)); cbn;
      destruct (Z.leb_spec SILENCE_THRESHOLD (silentChunksRef s + 1));
      autorewrite with handlers; cbn; auto.
  - right. left. destruct (negb (isProcessing r)); reflexivity.
Qed.

Lemma handleWSMessage_silentChunksRef (m : MessageData) (s : State) :
  silentChunksRef (handleWSMessage m s) = silentChunksRef s
  \/ silentChunksRef (handleWSMessage m s) = 0.
Proof.
  destruct m as [d | b]; cbn [handleWSMessage].
  - left. split_ifs; reflexivity.
  - right. reflexivity.
Qed.

Lemma step_silentChunksRef (s : State) (e : Event) :
  silentChunksRef (step s e) = silentChunksRef s
  \/ silentChunksRef (step s e) = 0
  \/ (silentChunksRef (step s e) = silentChunksRef s + 1
      /\ silentChunksRef s + 1 < SILENCE_THRESHOLD).
Proof.
  destruct e; cbn [step].
  - unfold handleMicClick.
    destruct (isPlaying (react s)); [auto|].
    destruct (isRecording (react s)); cbn; [auto|].
    destruct (wsRef s) as [ws|]; [destruct (readyState ws)|]; auto.
  - destruct (wsRef s) as [ws|]; [destruct (readyState ws)|]; auto.
  - destruct (ws_open s); [|auto].
    destruct (handleWSMessage_silentChunksRef d s); auto.
  - destruct (wsRef s); auto.
  - left. unfold ws_onerror. cbv zeta.
    destruct (wsRef s) as [ws|] eqn:Hws; [|reflexivity].
    cbn. rewrite Hws. destruct (readyState ws); reflexivity.
  - destruct (awaitingMedia s); auto.
  - destruct (awaitingMedia s); auto.
  - destruct (mediaRecorderRef s) as [mr|]; [destruct (mr_state mr)|]; auto.
    apply ondataavailable_silentChunksRef.
  - left. destruct (audible s) as [|n]; [reflexivity|]. unfold audio_onended.
    destruct (ws_open _); reflexivity.
  - destruct (audible s); auto.
  - destruct (audible s); auto.
Qed.

(** X5.  In every reachable state the silence counter is at least 0 and
    strictly below [SILENCE_THRESHOLD]: the chunk that would bring it to the
    threshold resets it instead, and nothing else raises it. *)
Theorem reachable_silentChunksRef_bounds (s : State) :
  reachable s -> 0 <= silentChunksRef s < SILENCE_THRESHOLD.
Proof.
  intros [es ->]. induction es as [|e es IH] using rev_ind.
  - cbn. unfold SILENCE_THRESHOLD. lia.
  - rewrite run_snoc.
    destruct (step_silentChunksRef (run initial es) e)
      as [-> | [-> | [-> ?]]]; unfold SILENCE_THRESHOLD in *; lia.
Qed.

(** X5, witness: the counter at the end of Scenario A. *)
Lemma reachable_silentChunksRef_bounds_witness :
  0 <= silentChunksRef scenarioA < SILENCE_THRESHOLD.
Proof. apply reachable_silentChunksRef_bounds. exact scenarioA_reachable. Defined.

(** ** Text messages *)

Lemma handleWSMessage_text_frame (d : string) (s : State) :
  wsRef (handleWSMessage (DataString d) s) = wsRef s
  /\ mediaRecorderRef (handleWSMessage (DataString d) s) = mediaRecorderRef s
  /\ audioChunksRef (handleWSMessage (DataString d) s) = audioChunksRef s
  /\ silentChunksRef (handleWSMessage (DataString d) s) = silentChunksRef s
  /\ currentAudioChunksRef (handleWSMessage (DataString d) s)
     = currentAudioChunksRef s
  /\ wire (handleWSMessage (DataString d) s) = wire s
  /\ audible (handleWSMessage (DataString d) s) = audible s
  /\ awaitingMedia (handleWSMessage (DataString d) s) = awaitingMedia s
  /\ isRecording (react (handleWSMessage (DataString d) s))
     = isRecording (react s)
  /\ isPaused (react (handleWSMessage (DataString d) s)) = isPaused (react s).
Proof.
  cbn [handleWSMessage]. split_ifs; repeat split.
Qed.

(** ** The recorder and the cell [isRecording] *)

Lemma recorder_coherent_ext (s s' : State) :
  isRecording (react s') = isRecording (react s) ->
  mediaRecorderRef s' = mediaRecorderRef s ->
  recorder_coherent s -> recorder_coherent s'.
Proof.
  unfold recorder_coherent, recorder_live. intros -> ->. auto.
Qed.

Lemma recorder_coherent_cleared (s s' : State) :
  isRecording (react s') = false ->
  mediaRecorderRef s' = mediaRecorderRef s ->
  recorder_coherent s -> recorder_coherent s'.
Proof.
  unfold recorder_coherent, recorder_live. intros -> -> [_ H].
  split; [discriminate | exact H].
Qed.

Lemma stopRecording_recorder_coherent (s : State) :
  recorder_coherent s -> recorder_coherent (stopRecording s).
Proof.
  unfold recorder_coherent, recorder_live, stopRecording.
  intros [H1 H2].
  destruct (mediaRecorderRef s) as [mr|] eqn:Hmr.
  - destruct (mr_state mr) eqn:Hst; cbn.
    + rewrite Hmr, Hst. auto.
    + split; [discriminate | auto].
    + split; [discriminate | auto].
  - cbn. rewrite Hmr. auto.
Qed.

Lemma ondataavailable_recorder_coherent (r : Render) (s : State) (d : Blob) :
  recorder_coherent s -> recorder_coherent (ondataavailable r s d).
Proof.
  intros H.
  destruct (ondataavailable_shape r s d)
    as (s' & [-> | ->] & _ & Hm & _ & _ & Hr & _).
  - now apply (recorder_coherent_ext s).
  - apply stopRecording_recorder_coherent.
    now apply (recorder_coherent_ext s).
Qed.

Lemma step_recorder_coherent (s : State) (e : Event) :
  recorder_coherent s -> recorder_coherent (step s e).
Proof.
  intros H. destruct e; cbn [step].
  - unfold handleMicClick.
    destruct (isPlaying (react s)); [exact H|].
    destruct (isRecording (react s)); cbn;
      [now apply stopRecording_recorder_coherent|].
    destruct (wsRef s) as [ws|]; [destruct (readyState ws)|];
      now apply (recorder_coherent_ext s).
  - destruct (wsRef s) as [ws|]; [destruct (readyState ws)|];
      now apply (recorder_coherent_ext s).
  - destruct (ws_open s); [|exact H]. destruct d as [d | b].
    + destruct (handleWSMessage_text_frame d s)
        as (_ & Hm & _ & _ & _ & _ & _ & _ & Hr & _).
      now apply (recorder_coherent_ext s).
    + cbn [handleWSMessage]. unfold playAudio. cbv zeta.
      apply (recorder_coherent_ext (stopRecording s)); try reflexivity.
      now apply stopRecording_recorder_coherent.
  - destruct (wsRef s); [|exact H].
    now apply (recorder_coherent_cleared s).
  - destruct (wsRef s) as [ws|] eqn:Hws; [|exact H].
    unfold ws_onerror. cbv zeta. cbn. rewrite Hws.
    destruct (readyState ws); now apply (recorder_coherent_cleared s).
  - destruct (awaitingMedia s); [exact H|].
    split; [reflexivity | cbn; auto].
  - destruct (awaitingMedia s); [exact H|].
    now apply (recorder_coherent_cleared s).
  - destruct (mediaRecorderRef s) as [mr|] eqn:Hmr;
      [destruct (mr_state mr)|]; try exact H.
    now apply ondataavailable_recorder_coherent.
  - destruct (audible s) as [|n]; [exact H|]. unfold audio_onended.
    destruct (ws_open _); now apply (recorder_coherent_ext s).
  - destruct (audible s); [exact H|]. now apply (recorder_coherent_ext s).
  - destruct (audible s); [exact H|]. now apply (recorder_coherent_ext s).
Qed.

(** X6.  In every reachable state, if the cell [isRecording] is set (the
    button reads [Stop]) then the recorder held by [mediaRecorderRef] is
    running; and that recorder is either recording with the tracks of its
    stream live, or inactive with the tracks stopped: it is never paused, and
    the microphone is released exactly when it stops. *)
Theorem reachable_recorder_coherent (s : State) :
  reachable s -> recorder_coherent s.
Proof.
  intros [es ->]. induction es as [|e es IH] using rev_ind.
  - split; [discriminate | exact I].
  - rewrite run_snoc. now apply step_recorder_coherent.
Qed.

(** X6, witness: the end of Scenario A. *)
Lemma reachable_recorder_coherent_witness : recorder_live scenarioA = true.
Proof.
  destruct (reachable_recorder_coherent scenarioA scenarioA_reachable)
    as [H _].
  apply H. vm_compute. reflexivity.
Defined.

(** ** The renders the handlers close over *)

Lemma step_closures_idle (s : State) (e : Event) :
  forall r, In r (closures (step s e)) ->
            In r (closures s) \/ (r = react s /\ idle_render r).
Proof.
  intros r. unfold idle_render. destruct e; cbn [step].
  - unfold handleMicClick.
    destruct (isPlaying (react s)) eqn:Hpl; [auto|].
    destruct (isRecording (react s)) eqn:Hrec; cbn [negb];
      [rewrite stopRecording_closures; auto|].
    unfold closures, setupMediaRecorder.
    destruct (wsRef s) as [ws|] eqn:Hws; [destruct (readyState ws)|];
      cbn; rewrite ?Hws; cbn;
      rewrite ?in_app_iff; cbn; intuition (subst; auto).
  - unfold closures, ws_onopen, setupMediaRecorder.
    destruct (wsRef s) as [ws|] eqn:Hws; [destruct (readyState ws)|];
      cbn; rewrite ?Hws; cbn; rewrite ?in_app_iff; cbn;
      intuition (subst; auto).
  - destruct (ws_open s); [rewrite handleWSMessage_closures|]; auto.
  - unfold closures, ws_onclose.
    destruct (wsRef s) as [ws|] eqn:Hws; cbn; rewrite ?Hws; cbn; auto.
  - unfold closures, ws_onerror.
    destruct (wsRef s) as [ws|] eqn:Hws; cbn; rewrite ?Hws; cbn; auto.
    destruct (readyState ws); cbn; rewrite ?Hws; cbn; auto.
  - unfold closures, setupMediaRecorder_granted.
    destruct (awaitingMedia s) as [|r0 rest] eqn:Haw; cbn; rewrite ?Haw; auto.
    destruct (wsRef s), (mediaRecorderRef s); cbn;
      rewrite ?in_app_iff; cbn; intuition (subst; auto).
  - unfold closures, setupMediaRecorder_catch.
    destruct (awaitingMedia s) as [|r0 rest] eqn:Haw; cbn; rewrite ?Haw; auto.
    rewrite !in_app_iff; cbn; intuition (subst; auto).
  - destruct (mediaRecorderRef s) as [mr|]; [destruct (mr_state mr)|];
      rewrite ?ondataavailable_closures; auto.
  - unfold audio_onended.
    destruct (audible s); [auto|]. destruct (ws_open _); auto.
  - destruct (audible s); auto.
  - destruct (audible s); auto.
Qed.

(** X7.  Every handler installed in a reachable state (the socket's
    [onopen], the recorder's [ondataavailable], a suspended
    [setupMediaRecorder]) closes over a render in which [isPlaying] and
    [isRecording] are both clear: handlers are only created by a click that
    passed the tests of lines 244 and 249.  So the [isPlaying] half of the
    test at line 184 is false in every call of a reachable chunk handler. *)
Theorem reachable_closures_idle (s : State) :
  reachable s -> Forall idle_render (closures s).
Proof.
  intros [es ->].
  induction es as [|e es IH] using rev_ind.
  - constructor.
  - rewrite run_snoc. rewrite Forall_forall in *. intros r Hr.
    apply step_closures_idle in Hr as [Hr | [_ Hr]]; auto.
Qed.

(** X7, witness: the closures at the end of Scenario A. *)
Lemma reachable_closures_idle_witness :
  Forall idle_render (closures scenarioA).
Proof. apply reachable_closures_idle. exact scenarioA_reachable. Defined.

(** ** The pause flags and the marker *)

Lemma processPausedAudio_flushes (r : Render) (s : State) :
  currentAudioChunksRef s <> [] ->
  isProcessing r = false ->
  ws_open s = true ->
  processPausedAudio r s
  = with_currentAudioChunksRef []
      (send (Binary (currentAudioChunksRef s))
         (send (Text "PAUSE_PROCESSING") (setIsProcessing true s))).
Proof.
  intros Hne Hp Hws. unfold processPausedAudio.
  destruct (currentAudioChunksRef s) as [|c cs] eqn:Hc; [congruence|].
  rewrite Hp. cbn.
  change (ws_open (setIsProcessing true s)) with (ws_open s).
  now rewrite Hws, Hc.
Qed.

Lemma stopRecording_pause_flags (s : State) :
  isPaused (react (stopRecording s)) = true
  \/ isProcessing (react (stopRecording s)) = true ->
  isPaused (react s) = true \/ isProcessing (react s) = true.
Proof.
  destruct (stopRecording_cases s) as [[_ ->] | (_ & _ & -> & ->)].
  - auto.
  - intros [H | H]; discriminate H.
Qed.

Lemma ondataavailable_pause_flags (r : Render) (s : State) (d : Blob) :
  isPaused (react (ondataavailable r s d)) = true
  \/ isProcessing (react (ondataavailable r s d)) = true ->
  (isPaused (react s) = true \/ isProcessing (react s) = true)
  \/ In (Text "PAUSE_PROCESSING") (wire (ondataavailable r s d)).
Proof.
  destruct (isProcessing r) eqn:Hp.
  { rewrite ondataavailable_withheld by (rewrite Hp; apply orb_true_r).
    cbv zeta. rewrite Hp. auto. }
  unfold ondataavailable. cbv zeta. rewrite Hp. cbn.
  destruct (isPlaying r); cbn; [auto|].
  change (ws_open _) with (ws_open s).
  destruct (ws_open s) eqn:Hws; cbn.
  - destruct (isSilent d).
    + match goal with
      | |- context [if ?c then processPausedAudio r ?x else ?y] =>
          destruct c;
          [rewrite (processPausedAudio_flushes r x);
           [ | cbn; now destruct (currentAudioChunksRef s)
             | exact Hp | exact Hws ] | ]
      end;
        match goal with
        | |- context [if ?c then stopRecording ?x else _] => destruct c
        end;
        intros H; try apply stopRecording_pause_flags in H;
        autorewrite with handlers; cbn in *;
        rewrite ?in_app_iff; cbn; auto 10.
    + destruct (isPaused r); cbn; auto.
      intros [H | H]; [discriminate H | auto].
  - intros H. apply stopRecording_pause_flags in H. auto.
Qed.

Lemma step_pause_flags (s : State) (e : Event) :
  isPaused (react (step s e)) = true
  \/ isProcessing (react (step s e)) = true ->
  (isPaused (react s) = true \/ isProcessing (react s) = true)
  \/ In (Text "PAUSE_PROCESSING") (wire (step s e)).
Proof.
  destruct e; cbn [step].
  - unfold handleMicClick.
    destruct (isPlaying (react s)); [auto|].
    destruct (isRecording (react s)); cbn.
    + intros H. apply stopRecording_pause_flags in H. auto.
    + destruct (wsRef s) as [ws|]; [destruct (readyState ws)|]; auto.
  - destruct (wsRef s) as [ws|]; [destruct (readyState ws)|]; auto.
  - destruct (ws_open s); [|auto]. destruct d as [d | b].
    + cbn [handleWSMessage]. split_ifs; cbn; auto;
        intros [H | H]; auto; discriminate H.
    + cbn [handleWSMessage]. unfold playAudio. cbv zeta.
      change (isPaused (react (stopRecording s)) = true
              \/ isProcessing (react (stopRecording s)) = true ->
              (isPaused (react s) = true \/ isProcessing (react s) = true)
              \/ In (Text "PAUSE_PROCESSING") (wire (stopRecording s))).
      intros H. apply stopRecording_pause_flags in H. auto.
  - destruct (wsRef s); auto.
  - unfold ws_onerror. cbv zeta.
    destruct (wsRef s) as [ws|] eqn:Hws; [|auto].
    cbn. rewrite Hws. destruct (readyState ws); auto.
  - destruct (awaitingMedia s); auto.
  - destruct (awaitingMedia s); auto.
  - destruct (mediaRecorderRef s) as [mr|]; [destruct (mr_state mr)|]; auto.
    apply ondataavailable_pause_flags.
  - destruct (audible s) as [|n]; [auto|]. unfold audio_onended.
    destruct (ws_open _); auto.
  - destruct (audible s); auto.
  - destruct (audible s); auto.
Qed.

Lemma step_wire_keeps (s : State) (e : Event) (f : Frame) :
  In f (wire s) -> In f (wire (step s e)).
Proof.
  intros H.
  destruct (step_wire s e)
    as [-> | [_ [[d ->] | [(parts & _ & ->) | ->]]]];
    rewrite ?in_app_iff; auto.
Qed.

(** X8.  In every reachable state in which the cell [isPaused] or the cell
    [isProcessing] is set, a [PAUSE_PROCESSING] marker has been sent: the
    status line never reads "Detected pause" or "Processing your speech"
    before the service was told of a pause. *)
Theorem reachable_pause_flags_after_marker (s : State) :
  reachable s ->
  isPaused (react s) = true \/ isProcessing (react s) = true ->
  In (Text "PAUSE_PROCESSING") (wire s).
Proof.
  intros [es ->]. induction es as [|e es IH] using rev_ind.
  - cbn. intros [H | H]; discriminate H.
  - rewrite run_snoc. intros H.
    apply step_pause_flags in H as [H | H]; [|exact H].
    apply step_wire_keeps. auto.
Qed.

(** X8, witness: the end of Scenario A, where both cells are set. *)
Lemma reachable_pause_flags_after_marker_witness :
  In (Text "PAUSE_PROCESSING") (wire scenarioA).
Proof.
  apply (reachable_pause_flags_after_marker scenarioA scenarioA_reachable).
  left. vm_compute. reflexivity.
Defined.

(** ** Text messages, continued *)

(** X9.  A text message, whatever its content, changes nothing but the
    [useState] cells, and among them neither [isRecording] nor [isPaused]:
    it sends nothing, starts and stops no capture, and leaves the socket,
    the recorder, the buffers and the counter as they are. *)
Theorem text_message_touches_cells_only (d : string) (s : State) :
  exists r',
    handleWSMessage (DataString d) s = with_react (fun _ => r') s
    /\ isRecording r' = isRecording (react s)
    /\ isPaused r' = isPaused (react s).
Proof.
  destruct s as [r ws mr ac sc cc w au aw].
  cbn [handleWSMessage]. split_ifs; eexists; (split; [reflexivity|]); cbn; auto.
Qed.

Lemma prefix_append (p t : string) : prefix p (p ++ t)%string = true.
Proof.
  induction p as [|a p IH]; cbn.
  - now destruct t.
  - destruct (Ascii.ascii_dec a a); [exact IH | contradiction].
Qed.

Lemma substring_whole (t : string) : substring 0 (String.length t) t = t.
Proof. induction t as [|a t IH]; cbn; congruence. Qed.

Lemma replace_prefix_append (p t : string) :
  replace_prefix p (p ++ t)%string = t.
Proof.
  unfold replace_prefix. induction p as [|a p IH]; cbn.
  - rewrite Nat.sub_0_r. apply substring_whole.
  - exact IH.
Qed.

(** X10.  For every text [t]: a message made of the transcript prefix and
    [t] sets the transcript to exactly [t]; one made of the reply prefix and
    [t] sets the reply text to exactly [t]; one made of the error prefix and
    [t] shows the whole message, prefix included, and clears [isPlaying].
    Nothing else changes. *)
Theorem prefixed_messages (t : string) (s : State) :
  handleWSMessage (DataString ("[Transcript] " ++ t)%string) s
  = setTranscript t s
  /\ handleWSMessage (DataString ("[AI] " ++ t)%string) s = setAIResponse t s
  /\ handleWSMessage (DataString ("[Error] " ++ t)%string) s
     = setIsPlaying false (setAIResponse ("[Error] " ++ t)%string s).
Proof.
  repeat split; cbn [handleWSMessage].
  - now rewrite prefix_append, replace_prefix_append.
  - change (prefix "[Transcript] " ("[AI] " ++ t)%string) with false.
    cbv iota. now rewrite prefix_append, replace_prefix_append.
  - change (prefix "[Transcript] " ("[Error] " ++ t)%string) with false.
    change (prefix "[AI] " ("[Error] " ++ t)%string) with false.
    cbv iota. now rewrite prefix_append.
Qed.

(** ** The status line *)

Lemma getStatusMessage_ready (r : Render) :
  getStatusMessage r = "Ready for conversation"
  <-> (isPlaying r = false /\ isProcessing r = false
       /\ isPaused r = false /\ isRecording r = false).
Proof.
  unfold getStatusMessage.
  destruct (isPlaying r), (isProcessing r), (isPaused r), (isRecording r);
    cbn; split; try discriminate; try tauto;
    intros (? & ? & ? & ?); discriminate.
Qed.

(** X11.  The status line reads "Ready for conversation" exactly when the
    four flags are clear, and "Listening to you..." exactly when
    [isRecording] is the only flag set. *)
Theorem getStatusMessage_ready_listening (r : Render) :
  (getStatusMessage r = "Ready for conversation"
   <-> (isPlaying r = false /\ isProcessing r = false
        /\ isPaused r = false /\ isRecording r = false))
  /\ (getStatusMessage r = "Listening to you..."
      <-> (isPlaying r = false /\ isProcessing r = false
           /\ isPaused r = false /\ isRecording r = true)).
Proof.
  split; [apply getStatusMessage_ready|].
  unfold getStatusMessage.
  destruct (isPlaying r), (isProcessing r), (isPaused r), (isRecording r);
    cbn; split; try discriminate; try tauto;
    intros (? & ? & ? & ?); discriminate.
Qed.

(** X11, witness: the status line of a session that has just started
    listening. *)
Lemma getStatusMessage_ready_listening_witness :
  isRecording (react listening) = true.
Proof.
  destruct (getStatusMessage_ready_listening (react listening)) as [_ [H _]].
  apply H. reflexivity.
Defined.

Lemma stopRecording_live_status (s : State) :
  recorder_live s = true ->
  isPlaying (react s) = false ->
  getStatusMessage (react (stopRecording s)) = "Ready for conversation".
Proof.
  intros Hlive Hpl. apply getStatusMessage_ready.
  rewrite stopRecording_isPlaying.
  destruct (stopRecording_cases s) as [[H _] | (_ & -> & -> & ->)];
    [congruence | auto].
Qed.

(** X12.  When the chunk that completes a long silence stops a running
    recorder, and no reply is announced or playing ([isPlaying] clear), the
    component is back in its resting state: the recorder is stopped and the
    status line reads "Ready for conversation", whatever the pause flags
    were. *)
Theorem auto_stop_returns_to_ready (r : Render) (s : State) (d : Blob) :
  isPlaying r = false ->
  isProcessing r = false ->
  ws_open s = true ->
  recorder_live s = true ->
  isPlaying (react s) = false ->
  isSilent d = true ->
  SILENCE_THRESHOLD <= silentChunksRef s + 1 ->
  recorder_live (ondataavailable r s d) = false
  /\ getStatusMessage (react (ondataavailable r s d))
     = "Ready for conversation".
Proof.
  intros Hpl Hpr Hws Hlive Hcell Hd Hge.
  destruct (ondataavailable_silent_reach r s d Hpl Hpr Hws Hd Hge)
    as [_ Hstop].
  split; [exact Hstop|].
  destruct (ondataavailable_shape r s d)
    as (s' & [Heq | Heq] & _ & Hm & _ & _ & _ & Hp).
  - rewrite Heq in Hstop. rewrite (recorder_live_ext s s' Hm) in Hstop.
    congruence.
  - rewrite Heq. apply stopRecording_live_status.
    + now rewrite (recorder_live_ext s s' Hm).
    + congruence.
Qed.

(** X12, witness: the fifth silent chunk of a session that started with
    silence. *)
Lemma auto_stop_returns_to_ready_witness :
  getStatusMessage
    (react (ondataavailable initial_render
              (feed initial_render listening (chunks [900; 800; 950; 10]))
              (mkBlob 0)))
  = "Ready for conversation".
Proof.
  apply (auto_stop_returns_to_ready initial_render
           (feed initial_render listening (chunks [900; 800; 950; 10]))
           (mkBlob 0));
    vm_compute; (reflexivity || discriminate).
Defined.

(** ** Leaving the page *)

(** X13.  The cleanup run when the component is removed leaves no running
    recorder and no open socket, whatever the state it finds; it changes no
    cell, sends nothing, and running it again changes nothing more. *)
Theorem unmount_releases (s : State) :
  recorder_live (unmount s) = false
  /\ ws_open (unmount s) = false
  /\ react (unmount s) = react s
  /\ wire (unmount s) = wire s
  /\ unmount (unmount s) = unmount s.
Proof.
  unfold unmount, recorder_live, ws_open, WebSocket_close. cbv zeta.
  destruct s as [r [[rs wr]|] [[st tl mrr]|] ac sc cc w au aw];
    cbn; try destruct rs; try destruct st; cbn; repeat split.
Qed.

(** ** The two chunk buffers over time *)

Lemma step_audioChunksRef (s : State) (e : Event) :
  audioChunksRef (step s e) = audioChunksRef s
  \/ exists d, e = DataAvailable d
               /\ audioChunksRef (step s e) = audioChunksRef s ++ [d].
Proof.
  destruct e; cbn [step];
    try (left;
         repeat match goal with
                | |- context [match ?x with _ => _ end] => destruct x
                end; reflexivity).
  - left. unfold handleMicClick.
    destruct (isPlaying (react s)); [reflexivity|].
    destruct (isRecording (react s)); cbn;
      [apply stopRecording_audioChunksRef|].
    destruct (wsRef s) as [ws|]; [destruct (readyState ws)|]; reflexivity.
  - left. destruct (ws_open s); [|reflexivity]. destruct d as [d | b].
    + apply (handleWSMessage_text_frame d s).
    + cbn [handleWSMessage]. unfold playAudio. cbv zeta.
      change (audioChunksRef (stopRecording s) = audioChunksRef s).
      apply stopRecording_audioChunksRef.
  - left. unfold ws_onerror. cbv zeta.
    destruct (wsRef s) as [ws|] eqn:Hws; [|reflexivity].
    cbn. rewrite Hws. destruct (readyState ws); reflexivity.
  - destruct (mediaRecorderRef s) as [mr|]; [destruct (mr_state mr)|]; auto.
    right. exists b. split; [reflexivity|].
    apply ondataavailable_audioChunksRef.
  - left. destruct (audible s) as [|n]; [reflexivity|]. unfold audio_onended.
    destruct (ws_open _); reflexivity.
Qed.

(** X14.  [audioChunksRef] only grows: a recorder's handler appends every
    chunk it is given, whatever its closure and whatever the state, and no
    event of the component ever removes or clears an element, so the list
    holds every chunk delivered since the page was loaded. *)
Theorem audioChunksRef_only_grows :
  (forall r s ds, audioChunksRef (feed r s ds) = audioChunksRef s ++ ds)
  /\ (forall es s, exists ds, audioChunksRef (run s es) = audioChunksRef s ++ ds).
Proof.
  split.
  - intros r s ds. revert s. induction ds as [|d ds IH]; intros s.
    + cbn. now rewrite app_nil_r.
    + rewrite feed_cons, IH, ondataavailable_audioChunksRef.
      now rewrite <- app_assoc.
  - intros es s. induction es as [|e es [ds IH]] using rev_ind.
    + exists []. cbn. now rewrite app_nil_r.
    + rewrite run_snoc.
      destruct (step_audioChunksRef (run s es) e) as [-> | (d & _ & ->)].
      * now exists ds.
      * exists (ds ++ [d]). now rewrite IH, app_assoc.
Qed.

Lemma handleMicClick_currentAudioChunksRef (r : Render) (s : State) :
  currentAudioChunksRef (handleMicClick r s) = currentAudioChunksRef s.
Proof.
  unfold handleMicClick.
  destruct (isPlaying r); [reflexivity|].
  destruct (isRecording r); cbn;
    [apply stopRecording_currentAudioChunksRef|].
  destruct (wsRef s) as [ws|]; [destruct (readyState ws)|]; reflexivity.
Qed.

(** X15.  The utterance buffer is changed by chunk events only.  Stopping,
    a reply, a status message, the loss of the socket, a new click and a new
    recorder all leave it as it is, so chunks buffered and not yet flushed
    when a session ends are still there when the next one starts. *)
Theorem currentAudioChunksRef_changes_on_chunks_only (s : State) (e : Event) :
  (forall d, e <> DataAvailable d) ->
  currentAudioChunksRef (step s e) = currentAudioChunksRef s.
Proof.
  intros He. destruct e; cbn [step];
    try (repeat match goal with
                | |- context [match ?x with _ => _ end] => destruct x
                end; reflexivity).
  - apply handleMicClick_currentAudioChunksRef.
  - destruct (ws_open s); [|reflexivity]. destruct d as [d | b].
    + apply (handleWSMessage_text_frame d s).
    + cbn [handleWSMessage]. unfold playAudio. cbv zeta.
      change (currentAudioChunksRef (stopRecording s)
              = currentAudioChunksRef s).
      apply stopRecording_currentAudioChunksRef.
  - unfold ws_onerror. cbv zeta.
    destruct (wsRef s) as [ws|] eqn:Hws; [|reflexivity].
    cbn. rewrite Hws. destruct (readyState ws); reflexivity.
  - now contradiction (He b).
  - destruct (audible s) as [|n]; [reflexivity|]. unfold audio_onended.
    destruct (ws_open _); reflexivity.
Qed.

(** X15, witness: the user stops a session with three chunks buffered. *)
Lemma currentAudioChunksRef_changes_on_chunks_only_witness :
  currentAudioChunksRef
    (step (run listening (map DataAvailable (chunks [1200; 1100; 900])))
          MicClick)
  = chunks [1200; 1100; 900].
Proof.
  rewrite currentAudioChunksRef_changes_on_chunks_only;
    [reflexivity | discriminate].
Defined.

(** ** The button *)

Lemma step_keeps_connecting_socket (s : State) (e : Event) (ws : WebSocket) :
  wsRef s = Some ws ->
  readyState ws = CONNECTING ->
  e <> WsOpen -> e <> WsClose -> e <> WsError ->
  wsRef (step s e) = Some ws.
Proof.
  intros Hws Hrs Ho Hc He. destruct e; cbn [step]; try congruence.
  - unfold handleMicClick.
    destruct (isPlaying (react s)); [exact Hws|].
    destruct (isRecording (react s)); cbn [negb].
    + now rewrite stopRecording_wsRef.
    + now rewrite Hws, Hrs.
  - destruct (ws_open s); [|exact Hws]. destruct d as [d | b].
    + destruct (handleWSMessage_text_frame d s) as [-> _]. exact Hws.
    + cbn [handleWSMessage]. unfold playAudio. cbv zeta.
      change (wsRef (stopRecording s) = Some ws).
      now rewrite stopRecording_wsRef.
  - destruct (awaitingMedia s); exact Hws.
  - destruct (awaitingMedia s); exact Hws.
  - destruct (mediaRecorderRef s) as [mr|]; [destruct (mr_state mr)|];
      rewrite ?ondataavailable_wsRef; exact Hws.
  - destruct (audible s) as [|n]; [exact Hws|]. unfold audio_onended.
    destruct (ws_open _); exact Hws.
  - destruct (audible s); exact Hws.
  - destruct (audible s); exact Hws.
Qed.

(** X16.  A click never sends anything.  While the socket held by [wsRef] is
    still connecting, a click made when nothing is being recorded leaves the
    whole state as it is, whichever render made the socket and whichever
    render the click comes from; and whatever events arrive, clicks
    included, [wsRef] keeps holding that same socket until it opens, closes
    or fails: no second socket is created meanwhile.  A click made while the
    socket is not open and nothing is being recorded sets up no recorder and
    asks for no microphone, and a second click right after it changes
    nothing. *)
Theorem second_click_while_connecting (s : State) :
  wire (step s MicClick) = wire s
  /\ (forall ws,
        wsRef s = Some ws ->
        readyState ws = CONNECTING ->
        (isRecording (react s) = false -> step s MicClick = s)
        /\ (forall es,
              (forall e, In e es ->
                         e <> WsOpen /\ e <> WsClose /\ e <> WsError) ->
              wsRef (run s es) = Some ws))
  /\ (ws_open s = false ->
      isRecording (react s) = false ->
      step (step s MicClick) MicClick = step s MicClick
      /\ awaitingMedia (step s MicClick) = awaitingMedia s
      /\ mediaRecorderRef (step s MicClick) = mediaRecorderRef s).
Proof.
  split; [apply handleMicClick_wire|]. split.
  - intros ws Hws Hrs. split.
    + intros Hrec. cbn [step]. unfold handleMicClick.
      rewrite Hrec, Hws, Hrs. now destruct (isPlaying (react s)).
    + intros es Hes. induction es as [|e es IH] using rev_ind; [exact Hws|].
      rewrite run_snoc.
      destruct (Hes e) as (Ho & Hc & He);
        [rewrite in_app_iff; right; now left|].
      apply step_keeps_connecting_socket; auto.
      apply IH. intros e' He'. apply Hes. rewrite in_app_iff. now left.
  - cbn [step]. unfold handleMicClick, ws_open. intros Hws Hrec.
    rewrite Hrec. destruct (isPlaying (react s)) eqn:Hpl.
    + rewrite Hpl. auto.
    + cbn [negb].
      destruct (wsRef s) as [ws|] eqn:Hw;
        [destruct (readyState ws) eqn:Hrs|];
        try discriminate; cbn; rewrite ?Hpl, ?Hrec, ?Hw, ?Hrs; cbn; auto.
Qed.

(** X16, witness: a socket made by a click and still connecting, then clicks
    that come from a later render (the reply text has changed since); and two
    clicks on a freshly loaded page. *)
Lemma second_click_while_connecting_witness :
  let s := setAIResponse "retrying" (step initial MicClick) in
  step s MicClick = s
  /\ wsRef (run s [MicClick; MediaDenied; MicClick; AudioEnded])
     = Some (mkWebSocket CONNECTING initial_render)
  /\ step (step initial MicClick) MicClick = step initial MicClick.
Proof.
  cbv zeta.
  destruct (second_click_while_connecting
              (setAIResponse "retrying" (step initial MicClick)))
    as (_ & Hconn & _).
  destruct (Hconn (mkWebSocket CONNECTING initial_render) eq_refl eq_refl)
    as [Hclick Hrun].
  destruct (second_click_while_connecting initial) as (_ & _ & Htwice).
  split; [|split].
  - apply Hclick. reflexivity.
  - apply Hrun. intros e He. cbn in He.
    repeat (destruct He as [<- | He]; [repeat split; discriminate|]).
    contradiction.
  - apply Htwice; reflexivity.
Defined.

(** ** When a flush is sent *)

Lemma app_not_longer {A : Type} (l : list A) (x y : A) : l <> l ++ [x; y].
Proof.
  intros H. apply (f_equal (@List.length A)) in H.
  rewrite length_app in H. cbn in H. lia.
Qed.

(** X17.  For a handler that classifies, on an open socket, a chunk makes
    the handler send a pause-flush exactly when the chunk is silent, it
    brings the counter to [PAUSE_THRESHOLD] or beyond, and the [isPaused] of
    the handler's closure is clear; the payload is then the utterance buffer
    with this chunk at its end. *)
Theorem flush_sent_iff (r : Render) (s : State) (d : Blob) :
  isPlaying r = false ->
  isProcessing r = false ->
  ws_open s = true ->
  wire (ondataavailable r s d)
  = wire s ++ [Text "PAUSE_PROCESSING";
               Binary (currentAudioChunksRef s ++ [d])]
  <-> (isSilent d = true
       /\ PAUSE_THRESHOLD <= silentChunksRef s + 1
       /\ isPaused r = false).
Proof.
  intros Hpl Hpr Hws. split.
  - intros Hflush. destruct (isSilent d) eqn:Hd.
    + split; [reflexivity|].
      revert Hflush. unfold ondataavailable. cbv zeta.
      rewrite Hpl, Hpr, Hd. cbn.
      change (ws_open _) with (ws_open s). rewrite Hws. cbn.
      destruct (Z.leb_spec PAUSE_THRESHOLD (silentChunksRef s + 1));
        destruct (isPaused r); cbn; auto;
        destruct (_ <=? _)%Z; autorewrite with handlers; cbn;
        intros Hflush; now apply app_not_longer in Hflush.
    + destruct (ondataavailable_speech r s d Hpl Hpr Hws Hd)
        as (_ & _ & Hw & _).
      rewrite Hw in Hflush. apply app_inv_head in Hflush. discriminate.
  - intros (Hd & Hge & Hpa).
    now apply ondataavailable_flushes_at_each_silent_chunk.
Qed.

(** X17, witness: the fourth chunk of Scenario A. *)
Lemma flush_sent_iff_witness :
  wire (ondataavailable initial_render
          (feed initial_render listening (chunks [1200; 1100; 900]))
          (mkBlob 800))
  = wire (feed initial_render listening (chunks [1200; 1100; 900]))
    ++ [Text "PAUSE_PROCESSING"; Binary (chunks [1200; 1100; 900; 800])].
Proof.
  apply (flush_sent_iff initial_render
           (feed initial_render listening (chunks [1200; 1100; 900]))
           (mkBlob 800));
    vm_compute; repeat split; discriminate.
Defined.

(** ** Who sets [isPlaying] *)

Lemma handleWSMessage_text_isPlaying (d : string) (s : State) :
  isPlaying (react (handleWSMessage (DataString d) s)) = true ->
  isPlaying (react s) = true \/ d = "[Status] AI_SPEAKING".
Proof.
  cbn [handleWSMessage].
  destruct (prefix "[Transcript] " d); [auto|].
  destruct (prefix "[AI] " d); [auto|].
  destruct (prefix "[Error] " d); [discriminate|].
  destruct (d =? "[Status] AI_SPEAKING") eqn:Hd;
    [right; now apply String.eqb_eq|].
  split_ifs; auto; discriminate.
Qed.

(** X18.  The cell [isPlaying], which disables the button, is only ever set
    by a message of the service: the status [AI_SPEAKING] or reply audio.
    No click, chunk, socket event or audio event sets it. *)
Theorem isPlaying_set_by_service_only (s : State) (e : Event) :
  isPlaying (react s) = false ->
  isPlaying (react (step s e)) = true ->
  e = WsMessage (DataString "[Status] AI_SPEAKING")
  \/ exists b, e = WsMessage (DataBlob b).
Proof.
  intros Hoff Hon. destruct e; cbn [step] in Hon.
  - unfold handleMicClick in Hon. rewrite Hoff in Hon.
    destruct (isRecording (react s)); cbn in Hon;
      [rewrite stopRecording_isPlaying in Hon; congruence|].
    destruct (wsRef s) as [ws|]; [destruct (readyState ws)|];
      cbn in Hon; congruence.
  - destruct (wsRef s) as [ws|]; [destruct (readyState ws)|];
      cbn in Hon; congruence.
  - destruct (ws_open s); [|congruence]. destruct d as [d | b].
    + apply handleWSMessage_text_isPlaying in Hon as [Hon | ->];
        [congruence | auto].
    + right. now exists b.
  - destruct (wsRef s); cbn in Hon; congruence.
  - unfold ws_onerror in Hon. cbv zeta in Hon.
    destruct (wsRef s) as [ws|] eqn:Hws; [|congruence].
    cbn in Hon. rewrite Hws in Hon.
    destruct (readyState ws); cbn in Hon; discriminate.
  - destruct (awaitingMedia s); cbn in Hon; congruence.
  - destruct (awaitingMedia s); cbn in Hon; congruence.
  - destruct (mediaRecorderRef s) as [mr|]; [destruct (mr_state mr)|];
      try congruence.
    destruct (ondataavailable_shape (mr_render mr) s b)
      as (s' & [Heq | Heq] & _ & _ & _ & _ & _ & Hp);
      rewrite Heq in Hon; rewrite ?stopRecording_isPlaying in Hon;
      congruence.
  - destruct (audible s) as [|n]; [congruence|].
    unfold audio_onended in Hon.
    destruct (ws_open _); cbn in Hon; congruence.
  - destruct (audible s); cbn in Hon; congruence.
  - destruct (audible s); cbn in Hon; congruence.
Qed.

(** X18, witness: the status [AI_SPEAKING] arrives in a listening session. *)
Lemma isPlaying_set_by_service_only_witness :
  WsMessage (DataString "[Status] AI_SPEAKING")
  = WsMessage (DataString "[Status] AI_SPEAKING")
  \/ exists b, WsMessage (DataString "[Status] AI_SPEAKING")
               = WsMessage (DataBlob b).
Proof.
  apply (isPlaying_set_by_service_only listening
           (WsMessage (DataString "[Status] AI_SPEAKING")));
    reflexivity.
Defined.

(** ** Capture during playback *)

(** A microphone request made before the reply arrived and granted after it
    began to play: the reply is playing, [isPlaying] is set, and the recorder
    is recording. *)
Lemma capture_starts_during_playback :
  let s := run initial
             [MicClick; WsOpen; WsMessage (DataBlob (mkBlob 5000));
              MediaGranted] in
  audible s = 1%nat
  /\ isPlaying (react s) = true
  /\ recorder_live s = true.
Proof. vm_compute. repeat split. Qed.
